(** * Verification of the kernel thread unit (src/kernel/thread.cc)

    A shallow embedding of [rt::Thread] and [rt::FunctionExports]:
    the export table, the life cycle ([SetUp], [Run], [TearDown]), the
    message dispatch loop and the timer-tick preemption counter.

    The scripting engine (V8) is an opaque collaborator.  It is passed
    around as a first-class record [Engine]; every point where the C++
    code enters the engine is a call to one of its fields.  Assertion
    failures ([RT_ASSERT]) and dereferences of null pointers end a
    computation with [Fatal]. *)

From stdpp Require Import gmap strings list fin_maps.
From Stdlib Require Import ZArith Lia.

Local Open Scope Z_scope.

(** ** Machine integers *)

Definition wrap32 (z : Z) : Z := z mod 2 ^ 32.
Definition wrap64 (z : Z) : Z := z mod 2 ^ 64.

(** ** Fatal outcomes

    [RT_ASSERT(e)] stops the kernel when [e] is false.  The text of the
    asserted expression is kept, so that theorems can say which
    assertion was reached. *)

Inductive Fault : Type :=
| Assert (expr : string)
| NullDereference (expr : string)
| DivideByZero.

Inductive Result (A : Type) : Type :=
| Ok (a : A)
| Fatal (f : Fault).

Arguments Ok {A} a.
Arguments Fatal {A} f.

(** Sequencing stops at the first fatal outcome; stdpp's monad notations
    ([x ← c; k] and [c;; k]) are used for it. *)
#[global] Instance Result_ret : MRet Result := λ A a, Ok a.
#[global] Instance Result_bind : MBind Result := λ A B k r,
  match r with
  | Ok a => k a
  | Fatal f => Fatal f
  end.

Definition RT_ASSERT (cond : bool) (expr : string) : Result unit :=
  if cond then Ok tt else Fatal (Assert expr).

(** Dereference of a pointer: [None] is [nullptr]. *)
Definition deref {A : Type} (p : option A) (expr : string) : Result A :=
  match p with
  | Some a => Ok a
  | None => Fatal (NullDereference expr)
  end.

(** [RT_ASSERT(p)] on a pointer, followed by its use. *)
Definition assert_ptr {A : Type} (p : option A) (expr : string) : Result A :=
  match p with
  | Some a => Ok a
  | None => Fatal (Assert expr)
  end.

(** ** Engine values

    A [v8::Value] is an opaque reference into an isolate's heap; what it
    denotes is known to the engine only.  [v8::Local<T>] and
    [v8::UniquePersistent<T>] handles may be empty: they are [option]s. *)

Inductive Value : Type :=
| ValueRef (addr : N).

#[global] Instance Value_eq_dec : EqDecision Value.
Proof. solve_decision. Defined.

Abbreviation Local := (option Value).
Abbreviation Persistent := (option Value).

(** A thread is named by the address of its [Thread] object ([this]), an
    [EngineThread] resource by the number of the resource. *)
Definition ThreadId := nat.

(** [ResourceHandle<EngineThread>]: empty, or a reference to a resource. *)
Abbreviation Handle := (option nat).

(** [v8::Isolate]: slot 0 of its embedder data holds the owning thread
    ([SetData(0, this)]); interrupt requests accumulate until delivered;
    [Dispose] destroys it. *)
Record Isolate : Type := {
  iso_data0 : option ThreadId;
  iso_interrupt_requests : list ThreadId;
  iso_disposed : bool
}.

Definition Isolate_New : Isolate :=
  {| iso_data0 := None; iso_interrupt_requests := []; iso_disposed := false |}.

Definition Isolate_SetData0 (th : ThreadId) (i : Isolate) : Isolate :=
  {| iso_data0 := Some th;
     iso_interrupt_requests := iso_interrupt_requests i;
     iso_disposed := iso_disposed i |}.

(** [iv8->RequestInterrupt(V8InterruptCallback, data)]. *)
Definition Isolate_RequestInterrupt (data : ThreadId) (i : Isolate) : Isolate :=
  {| iso_data0 := iso_data0 i;
     iso_interrupt_requests := iso_interrupt_requests i ++ [data];
     iso_disposed := iso_disposed i |}.

Definition Isolate_Dispose (i : Isolate) : Isolate :=
  {| iso_data0 := iso_data0 i;
     iso_interrupt_requests := iso_interrupt_requests i;
     iso_disposed := true |}.

(** ** The export table ([FunctionExports]) *)

(** [FunctionExportData(iv8, v, export_id)]: a persistent handle to the
    exported value and the generation id it was stored under. *)
Record FunctionExportData : Type := {
  fed_value : Persistent;
  fed_export_id : Z
}.

(** [data_] is a [std::vector], [export_id_] a [size_t] counter, and
    [thread_] the owning thread ([exports_(this)] in the constructor). *)
Record FunctionExports : Type := {
  data_ : list FunctionExportData;
  export_id_ : Z;
  thread_ : option ThreadId
}.

(** [new ExternalFunction(index, export_id, thread_, recv)]: [index] is a
    [uint32_t], [export_id] a [size_t]. *)
Record ExternalFunction : Type := {
  ef_index : Z;
  ef_export_id : Z;
  ef_thread : ThreadId;
  ef_recv : Handle
}.

Definition FunctionExports_new (this : ThreadId) : FunctionExports :=
  {| data_ := []; export_id_ := 0; thread_ := Some this |}.

(** [FunctionExports::Add] (thread.cc 44-53).  [iv8] is what
    [thread_->IsolateV8()] returns.  [data_.size()] is narrowed to the
    32-bit [index]; [++export_id_] wraps at the width of [size_t]. *)
Definition FunctionExports_Add (iv8 : option Isolate) (v : Local) (recv : Handle)
    (e : FunctionExports) : Result (ExternalFunction * FunctionExports) :=
  let index := wrap32 (Z.of_nat (length (data_ e))) in
  th ← assert_ptr (thread_ e) "thread_";
  _ ← assert_ptr iv8 "iv8";
  let export_id := wrap64 (export_id_ e + 1) in
  Ok ({| ef_index := index; ef_export_id := export_id;
         ef_thread := th; ef_recv := recv |},
      {| data_ := data_ e ++ [ {| fed_value := v; fed_export_id := export_id |} ];
         export_id_ := export_id;
         thread_ := thread_ e |}).

(** [FunctionExports::Get] (thread.cc 55-66).  The result is the empty
    handle when the stored generation id differs from the one asked for.
    The handle scope and [GetValue] work on the isolate: without one there
    is nothing to return a handle from.  [index] is the value of a
    [uint32_t] and [export_id] that of a [size_t]. *)
Definition FunctionExports_Get (iv8 : option Isolate) (index export_id : Z)
    (e : FunctionExports) : Result Local :=
  _ ← assert_ptr (thread_ e) "thread_";
  RT_ASSERT (bool_decide (index < Z.of_nat (length (data_ e)))) "index < data_.size()";;
  _ ← deref iv8 "iv8";
  d ← deref (data_ e !! Z.to_nat index) "data_[index]";
  if bool_decide (fed_export_id d <> export_id)
  then Ok None
  else Ok (fed_value d).

(** ** Messages *)

(** [ThreadType] of an engine thread. *)
Inductive ThreadType : Type :=
| DEFAULT
| IDLE
| TERMINATED.

#[global] Instance ThreadType_eq_dec : EqDecision ThreadType.
Proof. solve_decision. Defined.

(** [ThreadMessage::Type]: the tags the dispatch switch of [Run] has a
    case for.  The [default:] branch of the switch (a fatal assertion) is
    reached by no value of this type. *)
Inductive MessageType : Type :=
| SET_ARGUMENTS
| SET_ARGUMENTS_NOPARENT
| EVALUATE
| FUNCTION_CALL
| FUNCTION_RETURN_RESOLVE
| FUNCTION_RETURN_REJECT
| TIMEOUT_EVENT
| IRQ_RAISE
| EMPTY.

#[global] Instance MessageType_eq_dec : EqDecision MessageType.
Proof. solve_decision. Defined.

(** [TransportData]: a serialized value, an opaque buffer.  The default
    constructed [TransportData()] holds nothing. *)
Definition TransportData : Type := list N.

Definition TransportData_new : TransportData := [].

(** [ThreadMessage(type, sender, data, exported_func, recv_index)]. *)
Record ThreadMessage : Type := {
  msg_type : MessageType;
  msg_sender : Handle;
  msg_data : TransportData;
  msg_exported_func : option ExternalFunction;
  msg_recv_index : Z;
  msg_reusable : bool
}.

Definition ThreadMessage_new (ty : MessageType) (sender : Handle)
    (data : TransportData) (efn : option ExternalFunction) (recv_index : Z)
    : ThreadMessage :=
  {| msg_type := ty; msg_sender := sender; msg_data := data;
     msg_exported_func := efn; msg_recv_index := recv_index;
     msg_reusable := false |}.

(** ** The thread object *)

(** [TemplateCache]: [delete tpl_cache_] destroys the object and leaves
    the pointer as it was. *)
Record TemplateCache : Type := {
  tc_deleted : bool
}.

(** Pending timeouts, as pairs (timeout id, deadline in ticks), in the
    order in which they were set. *)
Definition Timeouts : Type := list (Z * Z).

Record Thread : Type := {
  this_ : ThreadId;
  thread_mgr_ : bool;
  type_ : ThreadType;
  iv8_ : option Isolate;
  tpl_cache_ : option TemplateCache;
  ethread_ : Handle;
  exports_ : FunctionExports;
  ref_count_ : Z;
  terminate_ : bool;
  parent_thread_ : Handle;
  parent_promise_id_ : Z;
  irq_ticks_counter_ : Z;
  priority_ : Z;
  v8_interrupt_enabled_ : bool;
  context_ : Persistent;
  args_ : Persistent;
  exit_value_ : Persistent;
  call_wrapper_ : Persistent;
  timeouts_ : Timeouts;
  timeout_data_ : gmap Z Value;
  irq_data_ : gmap Z Value;
  promises_ : gmap Z Value
}.

(** Assignments to single members. *)

Definition set_type_ (v : ThreadType) (t : Thread) : Thread :=
  {| this_ := this_ t; thread_mgr_ := thread_mgr_ t; type_ := v; iv8_ := iv8_
     t; tpl_cache_ := tpl_cache_ t; ethread_ := ethread_ t; exports_ :=
     exports_ t; ref_count_ := ref_count_ t; terminate_ := terminate_ t;
     parent_thread_ := parent_thread_ t; parent_promise_id_ :=
     parent_promise_id_ t; irq_ticks_counter_ := irq_ticks_counter_ t;
     priority_ := priority_ t; v8_interrupt_enabled_ := v8_interrupt_enabled_
     t; context_ := context_ t; args_ := args_ t; exit_value_ := exit_value_
     t; call_wrapper_ := call_wrapper_ t; timeouts_ := timeouts_ t;
     timeout_data_ := timeout_data_ t; irq_data_ := irq_data_ t; promises_ :=
     promises_ t |}.

Definition set_iv8_ (v : option Isolate) (t : Thread) : Thread :=
  {| this_ := this_ t; thread_mgr_ := thread_mgr_ t; type_ := type_ t; iv8_
     := v; tpl_cache_ := tpl_cache_ t; ethread_ := ethread_ t; exports_ :=
     exports_ t; ref_count_ := ref_count_ t; terminate_ := terminate_ t;
     parent_thread_ := parent_thread_ t; parent_promise_id_ :=
     parent_promise_id_ t; irq_ticks_counter_ := irq_ticks_counter_ t;
     priority_ := priority_ t; v8_interrupt_enabled_ := v8_interrupt_enabled_
     t; context_ := context_ t; args_ := args_ t; exit_value_ := exit_value_
     t; call_wrapper_ := call_wrapper_ t; timeouts_ := timeouts_ t;
     timeout_data_ := timeout_data_ t; irq_data_ := irq_data_ t; promises_ :=
     promises_ t |}.

Definition set_tpl_cache_ (v : option TemplateCache) (t : Thread) : Thread :=
  {| this_ := this_ t; thread_mgr_ := thread_mgr_ t; type_ := type_ t; iv8_
     := iv8_ t; tpl_cache_ := v; ethread_ := ethread_ t; exports_ := exports_
     t; ref_count_ := ref_count_ t; terminate_ := terminate_ t;
     parent_thread_ := parent_thread_ t; parent_promise_id_ :=
     parent_promise_id_ t; irq_ticks_counter_ := irq_ticks_counter_ t;
     priority_ := priority_ t; v8_interrupt_enabled_ := v8_interrupt_enabled_
     t; context_ := context_ t; args_ := args_ t; exit_value_ := exit_value_
     t; call_wrapper_ := call_wrapper_ t; timeouts_ := timeouts_ t;
     timeout_data_ := timeout_data_ t; irq_data_ := irq_data_ t; promises_ :=
     promises_ t |}.

Definition set_exports_ (v : FunctionExports) (t : Thread) : Thread :=
  {| this_ := this_ t; thread_mgr_ := thread_mgr_ t; type_ := type_ t; iv8_
     := iv8_ t; tpl_cache_ := tpl_cache_ t; ethread_ := ethread_ t; exports_
     := v; ref_count_ := ref_count_ t; terminate_ := terminate_ t;
     parent_thread_ := parent_thread_ t; parent_promise_id_ :=
     parent_promise_id_ t; irq_ticks_counter_ := irq_ticks_counter_ t;
     priority_ := priority_ t; v8_interrupt_enabled_ := v8_interrupt_enabled_
     t; context_ := context_ t; args_ := args_ t; exit_value_ := exit_value_
     t; call_wrapper_ := call_wrapper_ t; timeouts_ := timeouts_ t;
     timeout_data_ := timeout_data_ t; irq_data_ := irq_data_ t; promises_ :=
     promises_ t |}.

Definition set_ref_count_ (v : Z) (t : Thread) : Thread :=
  {| this_ := this_ t; thread_mgr_ := thread_mgr_ t; type_ := type_ t; iv8_
     := iv8_ t; tpl_cache_ := tpl_cache_ t; ethread_ := ethread_ t; exports_
     := exports_ t; ref_count_ := v; terminate_ := terminate_ t;
     parent_thread_ := parent_thread_ t; parent_promise_id_ :=
     parent_promise_id_ t; irq_ticks_counter_ := irq_ticks_counter_ t;
     priority_ := priority_ t; v8_interrupt_enabled_ := v8_interrupt_enabled_
     t; context_ := context_ t; args_ := args_ t; exit_value_ := exit_value_
     t; call_wrapper_ := call_wrapper_ t; timeouts_ := timeouts_ t;
     timeout_data_ := timeout_data_ t; irq_data_ := irq_data_ t; promises_ :=
     promises_ t |}.

Definition set_terminate_ (v : bool) (t : Thread) : Thread :=
  {| this_ := this_ t; thread_mgr_ := thread_mgr_ t; type_ := type_ t; iv8_
     := iv8_ t; tpl_cache_ := tpl_cache_ t; ethread_ := ethread_ t; exports_
     := exports_ t; ref_count_ := ref_count_ t; terminate_ := v;
     parent_thread_ := parent_thread_ t; parent_promise_id_ :=
     parent_promise_id_ t; irq_ticks_counter_ := irq_ticks_counter_ t;
     priority_ := priority_ t; v8_interrupt_enabled_ := v8_interrupt_enabled_
     t; context_ := context_ t; args_ := args_ t; exit_value_ := exit_value_
     t; call_wrapper_ := call_wrapper_ t; timeouts_ := timeouts_ t;
     timeout_data_ := timeout_data_ t; irq_data_ := irq_data_ t; promises_ :=
     promises_ t |}.

Definition set_parent_thread_ (v : Handle) (t : Thread) : Thread :=
  {| this_ := this_ t; thread_mgr_ := thread_mgr_ t; type_ := type_ t; iv8_
     := iv8_ t; tpl_cache_ := tpl_cache_ t; ethread_ := ethread_ t; exports_
     := exports_ t; ref_count_ := ref_count_ t; terminate_ := terminate_ t;
     parent_thread_ := v; parent_promise_id_ := parent_promise_id_ t;
     irq_ticks_counter_ := irq_ticks_counter_ t; priority_ := priority_ t;
     v8_interrupt_enabled_ := v8_interrupt_enabled_ t; context_ := context_
     t; args_ := args_ t; exit_value_ := exit_value_ t; call_wrapper_ :=
     call_wrapper_ t; timeouts_ := timeouts_ t; timeout_data_ :=
     timeout_data_ t; irq_data_ := irq_data_ t; promises_ := promises_ t |}.

Definition set_parent_promise_id_ (v : Z) (t : Thread) : Thread :=
  {| this_ := this_ t; thread_mgr_ := thread_mgr_ t; type_ := type_ t; iv8_
     := iv8_ t; tpl_cache_ := tpl_cache_ t; ethread_ := ethread_ t; exports_
     := exports_ t; ref_count_ := ref_count_ t; terminate_ := terminate_ t;
     parent_thread_ := parent_thread_ t; parent_promise_id_ := v;
     irq_ticks_counter_ := irq_ticks_counter_ t; priority_ := priority_ t;
     v8_interrupt_enabled_ := v8_interrupt_enabled_ t; context_ := context_
     t; args_ := args_ t; exit_value_ := exit_value_ t; call_wrapper_ :=
     call_wrapper_ t; timeouts_ := timeouts_ t; timeout_data_ :=
     timeout_data_ t; irq_data_ := irq_data_ t; promises_ := promises_ t |}.

Definition set_irq_ticks_counter_ (v : Z) (t : Thread) : Thread :=
  {| this_ := this_ t; thread_mgr_ := thread_mgr_ t; type_ := type_ t; iv8_
     := iv8_ t; tpl_cache_ := tpl_cache_ t; ethread_ := ethread_ t; exports_
     := exports_ t; ref_count_ := ref_count_ t; terminate_ := terminate_ t;
     parent_thread_ := parent_thread_ t; parent_promise_id_ :=
     parent_promise_id_ t; irq_ticks_counter_ := v; priority_ := priority_ t;
     v8_interrupt_enabled_ := v8_interrupt_enabled_ t; context_ := context_
     t; args_ := args_ t; exit_value_ := exit_value_ t; call_wrapper_ :=
     call_wrapper_ t; timeouts_ := timeouts_ t; timeout_data_ :=
     timeout_data_ t; irq_data_ := irq_data_ t; promises_ := promises_ t |}.

Definition set_v8_interrupt_enabled_ (v : bool) (t : Thread) : Thread :=
  {| this_ := this_ t; thread_mgr_ := thread_mgr_ t; type_ := type_ t; iv8_
     := iv8_ t; tpl_cache_ := tpl_cache_ t; ethread_ := ethread_ t; exports_
     := exports_ t; ref_count_ := ref_count_ t; terminate_ := terminate_ t;
     parent_thread_ := parent_thread_ t; parent_promise_id_ :=
     parent_promise_id_ t; irq_ticks_counter_ := irq_ticks_counter_ t;
     priority_ := priority_ t; v8_interrupt_enabled_ := v; context_ :=
     context_ t; args_ := args_ t; exit_value_ := exit_value_ t;
     call_wrapper_ := call_wrapper_ t; timeouts_ := timeouts_ t;
     timeout_data_ := timeout_data_ t; irq_data_ := irq_data_ t; promises_ :=
     promises_ t |}.

Definition set_context_ (v : Persistent) (t : Thread) : Thread :=
  {| this_ := this_ t; thread_mgr_ := thread_mgr_ t; type_ := type_ t; iv8_
     := iv8_ t; tpl_cache_ := tpl_cache_ t; ethread_ := ethread_ t; exports_
     := exports_ t; ref_count_ := ref_count_ t; terminate_ := terminate_ t;
     parent_thread_ := parent_thread_ t; parent_promise_id_ :=
     parent_promise_id_ t; irq_ticks_counter_ := irq_ticks_counter_ t;
     priority_ := priority_ t; v8_interrupt_enabled_ := v8_interrupt_enabled_
     t; context_ := v; args_ := args_ t; exit_value_ := exit_value_ t;
     call_wrapper_ := call_wrapper_ t; timeouts_ := timeouts_ t;
     timeout_data_ := timeout_data_ t; irq_data_ := irq_data_ t; promises_ :=
     promises_ t |}.

Definition set_args_ (v : Persistent) (t : Thread) : Thread :=
  {| this_ := this_ t; thread_mgr_ := thread_mgr_ t; type_ := type_ t; iv8_
     := iv8_ t; tpl_cache_ := tpl_cache_ t; ethread_ := ethread_ t; exports_
     := exports_ t; ref_count_ := ref_count_ t; terminate_ := terminate_ t;
     parent_thread_ := parent_thread_ t; parent_promise_id_ :=
     parent_promise_id_ t; irq_ticks_counter_ := irq_ticks_counter_ t;
     priority_ := priority_ t; v8_interrupt_enabled_ := v8_interrupt_enabled_
     t; context_ := context_ t; args_ := v; exit_value_ := exit_value_ t;
     call_wrapper_ := call_wrapper_ t; timeouts_ := timeouts_ t;
     timeout_data_ := timeout_data_ t; irq_data_ := irq_data_ t; promises_ :=
     promises_ t |}.

Definition set_exit_value_ (v : Persistent) (t : Thread) : Thread :=
  {| this_ := this_ t; thread_mgr_ := thread_mgr_ t; type_ := type_ t; iv8_
     := iv8_ t; tpl_cache_ := tpl_cache_ t; ethread_ := ethread_ t; exports_
     := exports_ t; ref_count_ := ref_count_ t; terminate_ := terminate_ t;
     parent_thread_ := parent_thread_ t; parent_promise_id_ :=
     parent_promise_id_ t; irq_ticks_counter_ := irq_ticks_counter_ t;
     priority_ := priority_ t; v8_interrupt_enabled_ := v8_interrupt_enabled_
     t; context_ := context_ t; args_ := args_ t; exit_value_ := v;
     call_wrapper_ := call_wrapper_ t; timeouts_ := timeouts_ t;
     timeout_data_ := timeout_data_ t; irq_data_ := irq_data_ t; promises_ :=
     promises_ t |}.

Definition set_call_wrapper_ (v : Persistent) (t : Thread) : Thread :=
  {| this_ := this_ t; thread_mgr_ := thread_mgr_ t; type_ := type_ t; iv8_
     := iv8_ t; tpl_cache_ := tpl_cache_ t; ethread_ := ethread_ t; exports_
     := exports_ t; ref_count_ := ref_count_ t; terminate_ := terminate_ t;
     parent_thread_ := parent_thread_ t; parent_promise_id_ :=
     parent_promise_id_ t; irq_ticks_counter_ := irq_ticks_counter_ t;
     priority_ := priority_ t; v8_interrupt_enabled_ := v8_interrupt_enabled_
     t; context_ := context_ t; args_ := args_ t; exit_value_ := exit_value_
     t; call_wrapper_ := v; timeouts_ := timeouts_ t; timeout_data_ :=
     timeout_data_ t; irq_data_ := irq_data_ t; promises_ := promises_ t |}.

Definition set_timeouts_ (v : Timeouts) (t : Thread) : Thread :=
  {| this_ := this_ t; thread_mgr_ := thread_mgr_ t; type_ := type_ t; iv8_
     := iv8_ t; tpl_cache_ := tpl_cache_ t; ethread_ := ethread_ t; exports_
     := exports_ t; ref_count_ := ref_count_ t; terminate_ := terminate_ t;
     parent_thread_ := parent_thread_ t; parent_promise_id_ :=
     parent_promise_id_ t; irq_ticks_counter_ := irq_ticks_counter_ t;
     priority_ := priority_ t; v8_interrupt_enabled_ := v8_interrupt_enabled_
     t; context_ := context_ t; args_ := args_ t; exit_value_ := exit_value_
     t; call_wrapper_ := call_wrapper_ t; timeouts_ := v; timeout_data_ :=
     timeout_data_ t; irq_data_ := irq_data_ t; promises_ := promises_ t |}.

Definition set_timeout_data_ (v : gmap Z Value) (t : Thread) : Thread :=
  {| this_ := this_ t; thread_mgr_ := thread_mgr_ t; type_ := type_ t; iv8_
     := iv8_ t; tpl_cache_ := tpl_cache_ t; ethread_ := ethread_ t; exports_
     := exports_ t; ref_count_ := ref_count_ t; terminate_ := terminate_ t;
     parent_thread_ := parent_thread_ t; parent_promise_id_ :=
     parent_promise_id_ t; irq_ticks_counter_ := irq_ticks_counter_ t;
     priority_ := priority_ t; v8_interrupt_enabled_ := v8_interrupt_enabled_
     t; context_ := context_ t; args_ := args_ t; exit_value_ := exit_value_
     t; call_wrapper_ := call_wrapper_ t; timeouts_ := timeouts_ t;
     timeout_data_ := v; irq_data_ := irq_data_ t; promises_ := promises_ t |}.

Definition set_irq_data_ (v : gmap Z Value) (t : Thread) : Thread :=
  {| this_ := this_ t; thread_mgr_ := thread_mgr_ t; type_ := type_ t; iv8_
     := iv8_ t; tpl_cache_ := tpl_cache_ t; ethread_ := ethread_ t; exports_
     := exports_ t; ref_count_ := ref_count_ t; terminate_ := terminate_ t;
     parent_thread_ := parent_thread_ t; parent_promise_id_ :=
     parent_promise_id_ t; irq_ticks_counter_ := irq_ticks_counter_ t;
     priority_ := priority_ t; v8_interrupt_enabled_ := v8_interrupt_enabled_
     t; context_ := context_ t; args_ := args_ t; exit_value_ := exit_value_
     t; call_wrapper_ := call_wrapper_ t; timeouts_ := timeouts_ t;
     timeout_data_ := timeout_data_ t; irq_data_ := v; promises_ := promises_
     t |}.

Definition set_promises_ (v : gmap Z Value) (t : Thread) : Thread :=
  {| this_ := this_ t; thread_mgr_ := thread_mgr_ t; type_ := type_ t; iv8_
     := iv8_ t; tpl_cache_ := tpl_cache_ t; ethread_ := ethread_ t; exports_
     := exports_ t; ref_count_ := ref_count_ t; terminate_ := terminate_ t;
     parent_thread_ := parent_thread_ t; parent_promise_id_ :=
     parent_promise_id_ t; irq_ticks_counter_ := irq_ticks_counter_ t;
     priority_ := priority_ t; v8_interrupt_enabled_ := v8_interrupt_enabled_
     t; context_ := context_ t; args_ := args_ t; exit_value_ := exit_value_
     t; call_wrapper_ := call_wrapper_ t; timeouts_ := timeouts_ t;
     timeout_data_ := timeout_data_ t; irq_data_ := irq_data_ t; promises_ :=
     v |}.

(** ** The scheduler side: engine threads and the thread manager *)

(** Modelled from the spec: [EngineThread] (kernel/engine.h is not among
    the sources).  It owns the message queue of a thread: "push_message
    (thread, message)" adds a message, "drain_messages(thread) -> ordered
    sequence of message" takes all of them.  The queue is the list of
    messages in the order in which a batch is dispatched.  [et_thread] is
    the [Thread*] that [thread()] returns. *)
Record EngineThread : Type := {
  et_type : ThreadType;
  et_thread : option ThreadId;
  et_messages : list ThreadMessage
}.

(** Modelled from the spec: [EngineThread::PushMessage].  "Dispatch
    order equals arrival order within a batch", and a promoted timeout is
    "ordered before messages that were already queued from other threads
    (timeouts are prepended to that thread's own queue before the batch
    snapshot is taken)": a TIMEOUT_EVENT message goes to the front of the
    queue, every other message to its back. *)
Definition EngineThread_PushMessage (m : ThreadMessage) (et : EngineThread)
    : EngineThread :=
  {| et_type := et_type et; et_thread := et_thread et;
     et_messages := match msg_type m with
                    | TIMEOUT_EVENT => m :: et_messages et
                    | _ => et_messages et ++ [m]
                    end |}.

Definition EngineThread_TakeMessages (et : EngineThread)
    : list ThreadMessage * EngineThread :=
  (et_messages et,
   {| et_type := et_type et; et_thread := et_thread et; et_messages := [] |}).

(** What [printf] writes, one constructor per format string of
    thread.cc. *)
Inductive Printf : Type :=
| P_new_isolate
| P_new_context
| P_delete_context
| P_delete_isolate
| P_terminate_exit_called
| P_terminate_refcount_0
| P_uncaught (exception_str : string)
| P_uncaught_at (script_name : string) (linenum : Z) (exception_str : string)
| P_stack (stack : string)
| P_preempt.

(** Everything outside the thread object that its operations reach: the
    engine-thread resources (by resource number), the thread manager's
    tick counter and current thread, and the console. *)
Record World : Type := {
  engine_threads : gmap nat EngineThread;
  ticks_count : Z;
  ms_per_tick : Z;
  current_thread : option ThreadId;
  preempt_calls : nat;
  console : list Printf
}.

Definition set_engine_threads (v : gmap nat EngineThread) (w : World) : World :=
  {| engine_threads := v; ticks_count := ticks_count w;
     ms_per_tick := ms_per_tick w; current_thread := current_thread w;
     preempt_calls := preempt_calls w; console := console w |}.

Definition printf (p : Printf) (w : World) : World :=
  {| engine_threads := engine_threads w; ticks_count := ticks_count w;
     ms_per_tick := ms_per_tick w; current_thread := current_thread w;
     preempt_calls := preempt_calls w; console := console w ++ [p] |}.

(** [thread_manager()->Preempt()]. *)
Definition Preempt (w : World) : World :=
  {| engine_threads := engine_threads w; ticks_count := ticks_count w;
     ms_per_tick := ms_per_tick w; current_thread := current_thread w;
     preempt_calls := S (preempt_calls w); console := console w |}.

(** [h.get()->PushMessage(msg)] through a resource handle; an empty
    handle, or one that names no resource, is a null pointer. *)
Definition PushMessage (h : Handle) (m : ThreadMessage) (w : World) : Result World :=
  n ← deref h "ResourceHandle::get()";
  et ← deref (engine_threads w !! n) "EngineThread";
  Ok (set_engine_threads (<[n := EngineThread_PushMessage m et]> (engine_threads w)) w).

(** [h.get()->TakeMessages()]. *)
Definition TakeMessages (h : Handle) (w : World)
    : Result (list ThreadMessage * World) :=
  n ← deref h "ResourceHandle::get()";
  et ← deref (engine_threads w !! n) "EngineThread";
  let '(messages, et') := EngineThread_TakeMessages et in
  Ok (messages, set_engine_threads (<[n := et']> (engine_threads w)) w).

(** The queue of an engine thread, empty when there is no such resource. *)
Definition queue_of (n : nat) (w : World) : list ThreadMessage :=
  match engine_threads w !! n with
  | Some et => et_messages et
  | None => []
  end.

(** ** The scripting engine *)

(** What a [v8::TryCatch] holds after script code threw: the exception
    as text, the script name and line of its [v8::Message] when there is
    one, and the stack trace as text (empty when there is none). *)
Record Exception : Type := {
  ex_exception_str : string;
  ex_message : option (string * Z);
  ex_stack : string
}.

(** [TransportData::SerializeError]. *)
Inductive SerializeError : Type :=
| SerializeError_NONE
| SerializeError_FAILED (code : N).

(** The places where [Run] hands control to script code. *)
Inductive ScriptCall : Type :=
| Script_Run (script : Value)
| Function_Call (fn : Value) (argv : list Value)
| Resolver_Resolve (resolver : Value) (v : Value)
| Resolver_Reject (resolver : Value) (v : Value)
| RunMicrotasks.

(** The engine collaborator.  Script code runs with the thread and the
    world in its hands (through the native bindings it may change
    either), and may end by throwing. *)
Record Engine : Type := {
  (** [data.Unpack(thread)]: empty when the data cannot be unpacked *)
  Unpack : TransportData -> Local;
  (** [data.MoveValue(exporter, recv, value)]: the error code, and the
      data the call leaves in [data] *)
  MoveValue : ThreadId -> ThreadId -> Value -> SerializeError * TransportData;
  (** [ScriptCompiler::Compile] of [unpacked->ToString()]: a script, or
      the exception that compiling threw *)
  Compile : Value -> Value + Exception;
  (** [v8::Null(iv8)] *)
  Null : Value;
  (** [handle.NewExternal(iv8)] *)
  NewExternal : Handle -> Value;
  (** [v8::Uint32::NewFromUnsigned(iv8, n)] *)
  Uint32_NewFromUnsigned : Z -> Value;
  (** [v->IsFunction()] *)
  IsFunction : Value -> bool;
  (** [tpl_cache_->NewContext()] *)
  NewContext : Value;
  (** running script code *)
  script : ScriptCall -> Thread -> World -> Thread * World * option Exception
}.

(** ** Pending-operation tables *)

(** Modelled from the spec: the timeout queue [timeouts_] with [Set],
    [Elapsed] and [Take] (its class is not among the sources).  "While
    the earliest pending timeout's deadline <= current tick, remove it
    and enqueue a TIMEOUT_EVENT message (to self) carrying its id."
    Among equal deadlines the one set first is the earliest. *)
Fixpoint Timeouts_earliest (ts : Timeouts) : option (Z * Z) :=
  match ts with
  | [] => None
  | x :: r =>
      match Timeouts_earliest r with
      | None => Some x
      | Some y => if bool_decide (x.2 <= y.2) then Some x else Some y
      end
  end.

Fixpoint Timeouts_remove (x : Z * Z) (ts : Timeouts) : Timeouts :=
  match ts with
  | [] => []
  | y :: r => if bool_decide (x = y) then r else y :: Timeouts_remove x r
  end.

Definition Timeouts_Set (timeout_id when : Z) (ts : Timeouts) : Timeouts :=
  ts ++ [(timeout_id, when)].

Definition Timeouts_Elapsed (ticks_now : Z) (ts : Timeouts) : bool :=
  match Timeouts_earliest ts with
  | Some x => bool_decide (x.2 <= ticks_now)
  | None => false
  end.

Definition Timeouts_Take (ts : Timeouts) : Result (Z * Timeouts) :=
  x ← deref (Timeouts_earliest ts) "timeouts_.Take()";
  Ok (x.1, Timeouts_remove x ts).

(** Modelled from the spec: [TakePromise], [TakeTimeoutData] and
    [GetIRQData] (defined in kernel/thread.h, not among the sources).
    "Promise table entries are removed (taken) exactly once, on
    settlement.  Timeout table entries are removed [...].
    Interrupt-handler table entries are looked up, not removed, on every
    IRQ_RAISE."  Each returns a persistent handle, empty when the table
    has no entry for the index. *)
Definition TakePromise (index : Z) (t : Thread) : Persistent * Thread :=
  (promises_ t !! index, set_promises_ (delete index (promises_ t)) t).

Definition TakeTimeoutData (index : Z) (t : Thread) : Persistent * Thread :=
  (timeout_data_ t !! index, set_timeout_data_ (delete index (timeout_data_ t)) t).

Definition GetIRQData (index : Z) (t : Thread) : Persistent :=
  irq_data_ t !! index.

(** Modelled from the spec: [V8InterruptScope] (kernel/thread.h), the
    preemption guard.  "Eligibility is a thread-local switch, off by
    default, intended to be enabled only while genuinely running" script
    code: on while the guarded call runs, off when the scope ends. *)
Definition V8InterruptScope_enter (t : Thread) : Thread :=
  set_v8_interrupt_enabled_ true t.

Definition V8InterruptScope_leave (t : Thread) : Thread :=
  set_v8_interrupt_enabled_ false t.

(** ** Construction, [SetTimeout], [SetUp], [TearDown] *)

(** [Thread::Thread] (thread.cc 24-38).  The type is read from the engine
    thread; [parent_thread_] is default constructed, an empty handle. *)
Definition Thread_new (this : ThreadId) (thread_mgr : bool) (ethread : Handle)
    (w : World) : Result Thread :=
  n ← deref ethread "ethread.get()";
  et ← deref (engine_threads w !! n) "EngineThread";
  Ok {| this_ := this; thread_mgr_ := thread_mgr; type_ := et_type et;
        iv8_ := None; tpl_cache_ := None; ethread_ := ethread;
        exports_ := FunctionExports_new this; ref_count_ := 0;
        terminate_ := false; parent_thread_ := None; parent_promise_id_ := 0;
        irq_ticks_counter_ := 0; priority_ := 1; v8_interrupt_enabled_ := false;
        context_ := None; args_ := None; exit_value_ := None;
        call_wrapper_ := None; timeouts_ := []; timeout_data_ := ∅;
        irq_data_ := ∅; promises_ := ∅ |}.

(** Use of [thread_mgr_->...]. *)
Definition thread_mgr (t : Thread) : Result unit :=
  if thread_mgr_ t then Ok tt else Fatal (NullDereference "thread_mgr_").

(** [Thread::SetTimeout] (thread.cc 69-73), in 64-bit unsigned
    arithmetic.  [GLOBAL_engines()->MsPerTick()] is [ms_per_tick]. *)
Definition SetTimeout (timeout_id timeout_ms : Z) (t : Thread) (w : World)
    : Result Thread :=
  thread_mgr t;;
  let ticks_now := ticks_count w in
  if bool_decide (ms_per_tick w = 0) then Fatal DivideByZero
  else
    let when := wrap64 (ticks_now + timeout_ms `div` ms_per_tick w) in
    Ok (set_timeouts_ (Timeouts_Set timeout_id when (timeouts_ t)) t).

(** [Thread::SetUp] (thread.cc 75-89). *)
Definition SetUp (t : Thread) (w : World) : Result (Thread * World) :=
  if bool_decide (type_ t = IDLE) then Ok (t, w)
  else
    RT_ASSERT (bool_decide (iv8_ t = None)) "nullptr == iv8_";;
    RT_ASSERT (bool_decide (tpl_cache_ t = None)) "nullptr == tpl_cache_";;
    let iv8 := Isolate_SetData0 (this_ t) Isolate_New in
    let w := printf P_new_isolate w in
    Ok (set_tpl_cache_ (Some {| tc_deleted := false |}) (set_iv8_ (Some iv8) t), w).

(** The message that [TearDown] builds for the parent (thread.cc
    107-116).  The error code that [MoveValue] returns is bound to [err]
    and the block ends; the message is built from [data] alone.  [handle()]
    is the thread's own engine-thread handle. *)
Definition TearDown_message (E : Engine) (t : Thread) (recv : ThreadId)
    : ThreadMessage :=
  let promise_id := parent_promise_id_ t in
  let data :=
    match exit_value_ t with
    | Some v => let '(err, data) := MoveValue E (this_ t) recv v in data
    | None => TransportData_new
    end in
  ThreadMessage_new FUNCTION_RETURN_RESOLVE (ethread_ t) data None promise_id.

(** [Thread::TearDown] (thread.cc 91-142). *)
Definition TearDown (E : Engine) (t : Thread) (w : World)
    : Result (Thread * World) :=
  RT_ASSERT (bool_decide (type_ t = DEFAULT)) "ThreadType::DEFAULT == type_";;
  iv8 ← assert_ptr (iv8_ t) "iv8_";
  RT_ASSERT (bool_decide (iso_data0 iv8 = Some (this_ t))) "iv8_->GetData(0) == this";;
  tpl_cache ← assert_ptr (tpl_cache_ t) "tpl_cache_";
  (* the block of lines 97-119 *)
  let thread := parent_thread_ t in
  n ← deref thread "thread.get()";
  lptr ← deref (engine_threads w !! n) "lptr";
  recv ← assert_ptr (et_thread lptr) "recv";
  w ← PushMessage thread (TearDown_message E t recv) w;
  (* lines 121-141 *)
  RT_ASSERT (thread_mgr_ t) "thread_mgr_";;
  RT_ASSERT (bool_decide (current_thread w = Some (this_ t)))
            "this == thread_mgr_->current_thread()";;
  let t := set_timeout_data_ ∅ t in
  let t := set_irq_data_ ∅ t in
  let t := set_promises_ ∅ t in
  let w := printf P_delete_context w in
  let t := set_context_ None t in
  let t := set_args_ None t in
  let t := set_exit_value_ None t in
  let t := set_call_wrapper_ None t in
  let t := set_tpl_cache_ (Some {| tc_deleted := true |}) t in
  let w := printf P_delete_isolate w in
  let t := set_iv8_ (Some (Isolate_Dispose iv8)) t in
  Ok (set_type_ TERMINATED t, w).

(** ** Preemption *)

(** [V8InterruptCallback] (thread.cc 341-348): what the engine runs when
    it delivers a requested interrupt. *)
Definition V8InterruptCallback (iv8 : option Isolate) (data : option ThreadId)
    (w : World) : Result World :=
  _ ← assert_ptr iv8 "iv8";
  _ ← assert_ptr data "data";
  Ok (Preempt (printf P_preempt w)).

(** [Thread::TimerTick] (thread.cc 350-359).  The counter is declared in
    kernel/thread.h (not among the sources); it is taken as a 32-bit
    unsigned integer. *)
Definition TimerTick (t : Thread) : Result Thread :=
  if negb (v8_interrupt_enabled_ t) then Ok t
  else
    let counter := wrap32 (irq_ticks_counter_ t + 1) in
    let t := set_irq_ticks_counter_ counter t in
    if bool_decide (counter > 7) then
      iv8 ← deref (iv8_ t) "iv8_";
      let t := set_iv8_ (Some (Isolate_RequestInterrupt (this_ t) iv8)) t in
      Ok (set_irq_ticks_counter_ 0 t)
    else Ok t.

(** [n] consecutive timer ticks. *)
Fixpoint TimerTicks (n : nat) (t : Thread) : Result Thread :=
  match n with
  | O => Ok t
  | S n => t ← TimerTick t; TimerTicks n t
  end.

(** The number of interrupt requests pending in the thread's isolate. *)
Definition interrupt_requests (t : Thread) : list ThreadId :=
  match iv8_ t with
  | Some iv8 => iso_interrupt_requests iv8
  | None => []
  end.

(** ** [Run] *)

(** The state of one [Run] call: the thread, the world, and what the
    [v8::TryCatch] declared before the loop (line 185) holds. *)
Definition RunState : Type := Thread * World * option Exception.

(** Script code runs inside the scope of the [TryCatch]: an exception it
    throws is caught there.  One thrown later replaces the one held. *)
Definition enter_script (E : Engine) (c : ScriptCall) (st : RunState) : RunState :=
  let '(t, w, trycatch) := st in
  let '(t, w, thrown) := script E c t w in
  (t, w, match thrown with Some ex => Some ex | None => trycatch end).

(** [V8InterruptScope v8_interrupt(this);] followed by the script calls
    of the case, up to the end of the block. *)
Definition guarded (E : Engine) (calls : list ScriptCall) (st : RunState) : RunState :=
  let '(t, w, trycatch) := st in
  let '(t, w, trycatch) :=
    foldl (fun st c => enter_script E c st) (V8InterruptScope_enter t, w, trycatch) calls in
  (V8InterruptScope_leave t, w, trycatch).

(** The message of lines 160-162: a [TIMEOUT_EVENT] with no sender, no
    data and the timeout id as its index. *)
Definition timeout_message (timeout_id : Z) : ThreadMessage :=
  ThreadMessage_new TIMEOUT_EVENT None TransportData_new None timeout_id.

(** The loop of lines 157-165.  Each turn takes one timeout away, so the
    number of pending timeouts bounds the number of turns; [fuel] is that
    bound, and [promote_timeouts_spec] shows the loop is left through its
    condition. *)
Fixpoint promote_timeouts (fuel : nat) (ticks_now : Z) (t : Thread) (w : World)
    : Result (Thread * World) :=
  if Timeouts_Elapsed ticks_now (timeouts_ t) then
    match fuel with
    | O => Ok (t, w)
    | S fuel =>
        '(timeout_id, ts) ← Timeouts_Take (timeouts_ t);
        let t := set_timeouts_ ts t in
        w ← PushMessage (ethread_ t) (timeout_message timeout_id) w;
        promote_timeouts fuel ticks_now t w
    end
  else Ok (t, w).

(** The body of the [switch] (lines 192-300) for one message. *)
Definition dispatch (E : Engine) (message : ThreadMessage) (st : RunState)
    : Result RunState :=
  let '(t, w, trycatch) := st in
  match msg_type message with
  | SET_ARGUMENTS_NOPARENT =>
      RT_ASSERT (bool_decide (args_ t = None)) "args_.IsEmpty()";;
      unpacked ← assert_ptr (Unpack E (msg_data message)) "!unpacked.IsEmpty()";
      Ok (set_args_ (Some unpacked) t, w, trycatch)
  | SET_ARGUMENTS =>
      RT_ASSERT (bool_decide (args_ t = None)) "args_.IsEmpty()";;
      unpacked ← assert_ptr (Unpack E (msg_data message)) "!unpacked.IsEmpty()";
      let t := set_args_ (Some unpacked) t in
      let t := set_parent_thread_ (msg_sender message) t in
      let t := set_parent_promise_id_ (msg_recv_index message) t in
      Ok (t, w, trycatch)
  | EVALUATE =>
      unpacked ← assert_ptr (Unpack E (msg_data message)) "!unpacked.IsEmpty()";
      match Compile E unpacked with
      | inl script => Ok (guarded E [Script_Run script] (t, w, trycatch))
      | inr ex => Ok (t, w, Some ex)
      end
  | FUNCTION_CALL =>
      unpacked ← assert_ptr (Unpack E (msg_data message)) "!unpacked.IsEmpty()";
      efn ← assert_ptr (msg_exported_func message) "efn";
      fnval ← FunctionExports_Get (iv8_ t) (ef_index efn) (ef_export_id efn) (exports_ t);
      fnval ← match fnval with
              | None => Ok (Null E)
              | Some f => RT_ASSERT (IsFunction E f) "fnval->IsFunction()";; Ok f
              end;
      fnwrap ← deref (call_wrapper_ t) "fnwrap";
      let argv := [ fnval; NewExternal E (msg_sender message); unpacked;
                    Uint32_NewFromUnsigned E (msg_recv_index message) ] in
      Ok (guarded E [Function_Call fnwrap argv] (t, w, trycatch))
  | FUNCTION_RETURN_RESOLVE =>
      unpacked ← assert_ptr (Unpack E (msg_data message)) "!unpacked.IsEmpty()";
      let '(p, t) := TakePromise (msg_recv_index message) t in
      resolver ← deref p "resolver";
      Ok (guarded E [Resolver_Resolve resolver unpacked; RunMicrotasks] (t, w, trycatch))
  | FUNCTION_RETURN_REJECT =>
      unpacked ← assert_ptr (Unpack E (msg_data message)) "!unpacked.IsEmpty()";
      let '(p, t) := TakePromise (msg_recv_index message) t in
      resolver ← deref p "resolver";
      Ok (guarded E [Resolver_Reject resolver unpacked; RunMicrotasks] (t, w, trycatch))
  | TIMEOUT_EVENT =>
      let '(p, t) := TakeTimeoutData (msg_recv_index message) t in
      fnv ← deref p "fnv";
      RT_ASSERT (IsFunction E fnv) "fnv->IsFunction()";;
      Ok (guarded E [Function_Call fnv []] (t, w, trycatch))
  | IRQ_RAISE =>
      fnv ← deref (GetIRQData (msg_recv_index message) t) "fnv";
      RT_ASSERT (IsFunction E fnv) "fnv->IsFunction()";;
      Ok (guarded E [Function_Call fnv []] (t, w, trycatch))
  | EMPTY => Ok (t, w, trycatch)
  end.

(** The [for] loop over the batch (lines 187-305). *)
Fixpoint dispatch_all (E : Engine) (messages : list ThreadMessage) (st : RunState)
    : Result RunState :=
  match messages with
  | [] => Ok st
  | message :: rest => st ← dispatch E message st; dispatch_all E rest st
  end.

(** Lines 318-335: what is printed for the exception the [TryCatch] holds. *)
Definition log_exception (ex : Exception) (w : World) : World :=
  let w :=
    match ex_message ex with
    | None => printf (P_uncaught (ex_exception_str ex)) w
    | Some (script_name, linenum) =>
        printf (P_uncaught_at script_name linenum (ex_exception_str ex)) w
    end in
  if bool_decide (0 < String.length (ex_stack ex))%nat
  then printf (P_stack (ex_stack ex)) w
  else w.

(** Lines 307-338: the end of [Run], after the batch. *)
Definition finish (st : RunState) : bool * Thread * World :=
  let '(t, w, trycatch) := st in
  if bool_decide (0 = ref_count_ t) || terminate_ t then
    let w := if terminate_ t
             then printf P_terminate_exit_called w
             else printf P_terminate_refcount_0 w in
    (false, set_terminate_ true t, w)
  else
    let w := match trycatch with
             | Some ex => log_exception ex w
             | None => w
             end in
    (true, t, w).

(** Lines 156-167: promotion of the elapsed timeouts, then the snapshot
    of the queue. *)
Definition take_batch (t : Thread) (w : World)
    : Result (list ThreadMessage * Thread * World) :=
  thread_mgr t;;
  let ticks_now := ticks_count w in
  '(t, w) ← promote_timeouts (length (timeouts_ t)) ticks_now t w;
  '(messages, w) ← TakeMessages (ethread_ t) w;
  Ok (messages, t, w).

(** Lines 175-181: the context is created on the first non-empty batch. *)
Definition ensure_context (E : Engine) (t : Thread) (w : World) : Thread * World :=
  match context_ t with
  | None => (set_context_ (Some (NewContext E)) t, printf P_new_context w)
  | Some _ => (t, w)
  end.

(** [Thread::Run] (thread.cc 144-339). *)
Definition Run (E : Engine) (t : Thread) (w : World) : Result (bool * Thread * World) :=
  RT_ASSERT (bool_decide (TERMINATED <> type_ t)) "ThreadType::TERMINATED != type_";;
  if bool_decide (IDLE = type_ t) then Ok (true, t, w)
  else
    _ ← assert_ptr (iv8_ t) "iv8_";
    _ ← assert_ptr (tpl_cache_ t) "tpl_cache_";
    '(messages, t, w) ← take_batch t w;
    match messages with
    | [] => Ok (true, t, w)
    | _ :: _ =>
        let '(t, w) := ensure_context E t w in
        RT_ASSERT (bool_decide (context_ t <> None)) "!context_.IsEmpty()";;
        st ← dispatch_all E messages (t, w, None);
        Ok (finish st)
    end.

(** ** Sequences of operations on one thread *)

Inductive Operation : Type :=
| Op_SetTimeout (timeout_id timeout_ms : Z)
| Op_SetUp
| Op_Run
| Op_TimerTick
| Op_TearDown.

Definition operate (E : Engine) (op : Operation) (s : Thread * World)
    : Result (Thread * World) :=
  let '(t, w) := s in
  match op with
  | Op_SetTimeout timeout_id timeout_ms =>
      t ← SetTimeout timeout_id timeout_ms t w; Ok (t, w)
  | Op_SetUp => SetUp t w
  | Op_Run => '(_, t, w) ← Run E t w; Ok (t, w)
  | Op_TimerTick => t ← TimerTick t; Ok (t, w)
  | Op_TearDown => TearDown E t w
  end.

Fixpoint operate_all (E : Engine) (ops : list Operation) (s : Thread * World)
    : Result (Thread * World) :=
  match ops with
  | [] => Ok s
  | op :: ops => s ← operate E op s; operate_all E ops s
  end.

(** The export table after any number of later [Add]s. *)
Inductive Exports_later : FunctionExports -> FunctionExports -> Prop :=
| Exports_later_refl e : Exports_later e e
| Exports_later_Add e e1 e2 iv8 v recv h :
    Exports_later e e1 ->
    FunctionExports_Add iv8 v recv e1 = Ok (h, e2) ->
    Exports_later e e2.

(** The liveness count is zero or the termination flag is set: the
    condition tested at line 307. *)
Definition stop_pending (t : Thread) : Prop :=
  ref_count_ t = 0 \/ terminate_ t = true.

(** ** A small engine and a small system, to run the model on

    Values 100..199 are functions.  Script 50 throws, script 51 sets the
    termination flag ([runtime.exit()]); value 13 cannot be serialized. *)

Definition sample_exception : Exception :=
  {| ex_exception_str := "Error: boom";
     ex_message := Some ("init.js", 3);
     ex_stack := "Error: boom at init.js:3" |}.

Definition sample_script (c : ScriptCall) (t : Thread) (w : World)
    : Thread * World * option Exception :=
  match c with
  | Script_Run (ValueRef a) =>
      if bool_decide (a = 50%N) then (t, w, Some sample_exception)
      else if bool_decide (a = 51%N) then (set_terminate_ true t, w, None)
      else (t, w, None)
  | _ => (t, w, None)
  end.

Definition sample_engine : Engine :=
  {| Unpack := fun data => match data with
                           | [] => Some (ValueRef 0)
                           | a :: _ => Some (ValueRef a)
                           end;
     MoveValue := fun exporter recv v =>
       match v with
       | ValueRef 13 => (SerializeError_FAILED 1, [])
       | ValueRef a => (SerializeError_NONE, [a])
       end;
     Compile := fun v => inl v;
     Null := ValueRef 1;
     NewExternal := fun h => ValueRef 2;
     Uint32_NewFromUnsigned := fun n => ValueRef 3;
     IsFunction := fun v => match v with
                            | ValueRef a => bool_decide (100 <= a < 200)%N
                            end;
     NewContext := ValueRef 4;
     script := sample_script |}.

(** Engine thread 0 belongs to the parent (thread object 1), engine
    thread 1 to the thread under study (thread object 2). *)
Definition sample_world (queue : list ThreadMessage) : World :=
  {| engine_threads :=
       <[0%nat := {| et_type := DEFAULT; et_thread := Some 1%nat; et_messages := [] |}]>
       (<[1%nat := {| et_type := DEFAULT; et_thread := Some 2%nat; et_messages := queue |}]> ∅);
     ticks_count := 100; ms_per_tick := 1; current_thread := Some 2%nat;
     preempt_calls := 0; console := [] |}.

(** The thread as the constructor leaves it. *)
Definition sample_new : Thread :=
  {| this_ := 2%nat; thread_mgr_ := true; type_ := DEFAULT;
     iv8_ := None; tpl_cache_ := None; ethread_ := Some 1%nat;
     exports_ := FunctionExports_new 2%nat; ref_count_ := 0;
     terminate_ := false; parent_thread_ := None; parent_promise_id_ := 0;
     irq_ticks_counter_ := 0; priority_ := 1; v8_interrupt_enabled_ := false;
     context_ := None; args_ := None; exit_value_ := None;
     call_wrapper_ := None; timeouts_ := []; timeout_data_ := ∅;
     irq_data_ := ∅; promises_ := ∅ |}.

(** The thread after [SetUp]. *)
Definition sample_thread : Thread :=
  set_tpl_cache_ (Some {| tc_deleted := false |})
    (set_iv8_ (Some (Isolate_SetData0 2%nat Isolate_New)) sample_new).

(** The thread after a [SET_ARGUMENTS] message from engine thread 0 with
    correlation index 42. *)
Definition sample_child : Thread :=
  set_parent_promise_id_ 42 (set_parent_thread_ (Some 0%nat) sample_thread).

Definition sample_evaluate (script : N) : ThreadMessage :=
  ThreadMessage_new EVALUATE (Some 0%nat) [script] None 0.

(** The thread with an exit value that cannot be serialized. *)
Definition sample_child_failing : Thread :=
  set_exit_value_ (Some (ValueRef 13)) sample_child.

(** An export table with one entry, and the same after one more [Add]. *)
Definition sample_handle : ExternalFunction :=
  {| ef_index := 0; ef_export_id := 1; ef_thread := 2%nat; ef_recv := Some 0%nat |}.

Definition sample_exports1 : FunctionExports :=
  {| data_ := [ {| fed_value := Some (ValueRef 100); fed_export_id := 1 |} ];
     export_id_ := 1; thread_ := Some 2%nat |}.

Definition sample_exports2 : FunctionExports :=
  {| data_ := [ {| fed_value := Some (ValueRef 100); fed_export_id := 1 |};
                {| fed_value := Some (ValueRef 101); fed_export_id := 2 |} ];
     export_id_ := 2; thread_ := Some 2%nat |}.

(** The thread holding one reference, and the thread with a callback
    registered for timeout 9. *)
Definition sample_live : Thread := set_ref_count_ 1 sample_thread.

Definition sample_timer : Thread :=
  set_timeout_data_ {[ 9 := ValueRef 100 ]} sample_thread.

(** The thread with timeout 9 due at tick 50. *)
Definition sample_due : Thread := set_timeouts_ [(9, 50)] sample_timer.

(** The thread with an interrupt handler for index 5, a promise pending
    under index 3 and the callback of timeout 9; and messages for them. *)
Definition sample_pending : Thread :=
  set_irq_data_ {[ 5 := ValueRef 101 ]}
    (set_promises_ {[ 3 := ValueRef 7 ]} sample_timer).

Definition sample_message (ty : MessageType) (index : Z) : ThreadMessage :=
  ThreadMessage_new ty (Some 0%nat) [8%N] None index.

(** The thread with two exported functions and a call wrapper, and a
    FUNCTION_CALL message naming an export. *)
Definition sample_exporting : Thread :=
  set_call_wrapper_ (Some (ValueRef 150)) (set_exports_ sample_exports2 sample_thread).

Definition sample_call (index export_id : Z) : ThreadMessage :=
  ThreadMessage_new FUNCTION_CALL (Some 0%nat) [8%N]
    (Some {| ef_index := index; ef_export_id := export_id;
             ef_thread := 2%nat; ef_recv := Some 0%nat |}) 6.

(** The message types whose case of the switch unpacks the payload. *)
Definition carries_payload (ty : MessageType) : bool :=
  match ty with
  | TIMEOUT_EVENT | IRQ_RAISE | EMPTY => false
  | _ => true
  end.

(** The two message types that set the arguments of the thread. *)
Definition sets_arguments (ty : MessageType) : bool :=
  match ty with
  | SET_ARGUMENTS | SET_ARGUMENTS_NOPARENT => true
  | _ => false
  end.

(** An engine like the sample one that cannot unpack empty data and
    cannot compile source 66. *)
Definition sample_engine_strict : Engine :=
  {| Unpack := fun data => match data with
                           | [] => None
                           | a :: _ => Some (ValueRef a)
                           end;
     MoveValue := MoveValue sample_engine;
     Compile := fun v => if bool_decide (v = ValueRef 66)
                         then inr sample_exception else inl v;
     Null := Null sample_engine;
     NewExternal := NewExternal sample_engine;
     Uint32_NewFromUnsigned := Uint32_NewFromUnsigned sample_engine;
     IsFunction := IsFunction sample_engine;
     NewContext := NewContext sample_engine;
     script := script sample_engine |}.

(** The thread of an IDLE engine thread, as constructed. *)
Definition sample_idle : Thread := set_type_ IDLE sample_new.

(** The child thread with exit value 77, and a parent thread that
    waits for it under promise id 42. *)
Definition sample_child_exiting : Thread :=
  set_exit_value_ (Some (ValueRef 77)) sample_child.

Definition sample_parent : Thread :=
  set_promises_ {[ 42 := ValueRef 7 ]} sample_thread.

(** An engine whose script code leaves a trace in the liveness count: a
    function call adds 1 to it, settling a promise adds 10, running the
    microtasks adds 100. *)
Definition sample_engine_counting : Engine :=
  {| Unpack := Unpack sample_engine;
     MoveValue := MoveValue sample_engine;
     Compile := Compile sample_engine;
     Null := Null sample_engine;
     NewExternal := NewExternal sample_engine;
     Uint32_NewFromUnsigned := Uint32_NewFromUnsigned sample_engine;
     IsFunction := IsFunction sample_engine;
     NewContext := NewContext sample_engine;
     script := fun c t w =>
       match c with
       | Function_Call _ _ => (set_ref_count_ (ref_count_ t + 1) t, w, None)
       | Resolver_Resolve _ _ | Resolver_Reject _ _ =>
           (set_ref_count_ (ref_count_ t + 10) t, w, None)
       | RunMicrotasks => (set_ref_count_ (ref_count_ t + 100) t, w, None)
       | Script_Run _ => (t, w, None)
       end |}.

(** The thread inside a guarded script call, and outside of one. *)
Definition sample_running : Thread := V8InterruptScope_enter sample_thread.

(** The script call that settles a promise. *)
Definition settle (ty : MessageType) (resolver unpacked : Value) : ScriptCall :=
  match ty with
  | FUNCTION_RETURN_REJECT => Resolver_Reject resolver unpacked
  | _ => Resolver_Resolve resolver unpacked
  end.

(** * Theorems *)

(** The sample thread is what the constructor and [SetUp] produce. *)
Example sample_new_constructed :
  Thread_new 2%nat true (Some 1%nat) (sample_world []) = Ok sample_new.
Proof. vm_compute. reflexivity. Qed.

Example sample_thread_set_up :
  SetUp sample_new (sample_world []) = Ok (sample_thread, printf P_new_isolate (sample_world [])).
Proof. vm_compute. reflexivity. Qed.

(** ** Sequencing *)

Lemma bind_Ok {A B : Type} (r : Result A) (k : A -> Result B) (b : B) :
  (r ≫= k) = Ok b -> exists a, r = Ok a /\ k a = Ok b.
Proof. destruct r as [a|f]; simpl; [eauto | discriminate]. Qed.

Lemma RT_ASSERT_Ok (cond : bool) (expr : string) (u : unit) :
  RT_ASSERT cond expr = Ok u -> cond = true.
Proof. destruct cond; [reflexivity | discriminate]. Qed.

Lemma assert_ptr_Ok {A : Type} (p : option A) (expr : string) (a : A) :
  assert_ptr p expr = Ok a -> p = Some a.
Proof. destruct p; simpl; congruence. Qed.

Lemma deref_Ok {A : Type} (p : option A) (expr : string) (a : A) :
  deref p expr = Ok a -> p = Some a.
Proof. destruct p; simpl; congruence. Qed.

(** Takes a hypothesis [c = Ok r] apart, one sequenced step at a time. *)
Ltac inv_ok H :=
  repeat match type of H with
  | (_ ≫= _) = Ok _ =>
      let a := fresh "a" in let Ha := fresh "Ha" in
      apply bind_Ok in H; destruct H as (a & Ha & H)
  | Ok _ = Ok _ => injection H as H
  end.

(** ** The export table *)

Section Exports.

Lemma Add_inv iv8 v recv e h e1 :
  FunctionExports_Add iv8 v recv e = Ok (h, e1) ->
  ef_index h = wrap32 (Z.of_nat (length (data_ e))) /\
  ef_export_id h = wrap64 (export_id_ e + 1) /\
  data_ e1 = data_ e ++ [ {| fed_value := v; fed_export_id := ef_export_id h |} ] /\
  thread_ e1 = thread_ e /\ is_Some (thread_ e) /\ is_Some iv8.
Proof.
  unfold FunctionExports_Add. intros H.
  destruct (thread_ e) as [th|] eqn:Hth; [|discriminate].
  destruct iv8 as [i|]; [|discriminate].
  simpl in H. injection H as <- <-. simpl. eauto 10.
Qed.

(** Later [Add]s only append: every entry stays where it is. *)
Lemma Exports_later_prefix e e' :
  Exports_later e e' ->
  thread_ e' = thread_ e /\ exists more, data_ e' = data_ e ++ more.
Proof.
  induction 1 as [e | e e1 e2 iv8 v recv h _ [IHt [more IHd]] HAdd].
  - split; [reflexivity | exists []; by rewrite app_nil_r].
  - apply Add_inv in HAdd as (_ & _ & Hd & Ht & _).
    split; [congruence|].
    eexists. rewrite Hd, IHd, <- app_assoc. reflexivity.
Qed.

Lemma Get_entry iso index export_id e d :
  is_Some (thread_ e) ->
  0 <= index ->
  data_ e !! Z.to_nat index = Some d ->
  FunctionExports_Get (Some iso) index export_id e =
    Ok (if bool_decide (fed_export_id d <> export_id) then None else fed_value d).
Proof.
  intros [th Hth] Hidx Hd. unfold FunctionExports_Get. rewrite Hth. simpl.
  assert (Hlt : index < Z.of_nat (length (data_ e))).
  { apply lookup_lt_Some in Hd. lia. }
  rewrite bool_decide_eq_true_2 by exact Hlt. simpl. rewrite Hd. simpl.
  destruct (bool_decide (fed_export_id d <> export_id)); reflexivity.
Qed.

End Exports.

(** C4.  A value [v] added to the export table resolves, through [Get],
    by the index and the generation id of the handle that [Add] returned;
    by the same index and any other generation id [Get] returns the empty
    handle; and both stay so after any number of later [Add]s.  (The
    index of a handle is a 32-bit integer: the table holds fewer than
    2^32 entries when [v] is added.) *)
Theorem export_handle_never_resurrects iv8 iso v recv e h e1 e2 :
  Z.of_nat (length (data_ e)) < 2 ^ 32 ->
  FunctionExports_Add iv8 v recv e = Ok (h, e1) ->
  Exports_later e1 e2 ->
  FunctionExports_Get (Some iso) (ef_index h) (ef_export_id h) e2 = Ok v /\
  forall export_id, export_id <> ef_export_id h ->
    FunctionExports_Get (Some iso) (ef_index h) export_id e2 = Ok None.
Proof.
  intros Hsize HAdd Hlater.
  apply Add_inv in HAdd as (Hidx & _ & Hd1 & Ht1 & Hth & _).
  apply Exports_later_prefix in Hlater as [Ht2 [more Hd2]].
  assert (Hindex : ef_index h = Z.of_nat (length (data_ e))).
  { rewrite Hidx. unfold wrap32. apply Z.mod_small. lia. }
  assert (Hentry : data_ e2 !! Z.to_nat (ef_index h) =
                   Some {| fed_value := v; fed_export_id := ef_export_id h |}).
  { rewrite Hindex, Nat2Z.id, Hd2, Hd1.
    rewrite lookup_app_l by (rewrite length_app; simpl; lia).
    rewrite lookup_app_r by lia.
    by rewrite Nat.sub_diag. }
  assert (Hth2 : is_Some (thread_ e2)) by (rewrite Ht2, Ht1; exact Hth).
  assert (Hpos : 0 <= ef_index h) by lia.
  split.
  - rewrite (Get_entry _ _ _ _ _ Hth2 Hpos Hentry). simpl.
    rewrite bool_decide_eq_false_2; [reflexivity | tauto].
  - intros export_id Hne.
    rewrite (Get_entry _ _ _ _ _ Hth2 Hpos Hentry). simpl.
    rewrite bool_decide_eq_true_2; [reflexivity | congruence].
Qed.

Lemma export_handle_never_resurrects_witness :
  FunctionExports_Get (Some Isolate_New) 0 1 sample_exports2 = Ok (Some (ValueRef 100)) /\
  forall export_id, export_id <> 1 ->
    FunctionExports_Get (Some Isolate_New) 0 export_id sample_exports2 = Ok None.
Proof.
  apply (export_handle_never_resurrects (Some Isolate_New) Isolate_New
           (Some (ValueRef 100)) (Some 0%nat) (FunctionExports_new 2%nat)
           sample_handle sample_exports1 sample_exports2).
  - reflexivity.
  - reflexivity.
  - apply (Exports_later_Add _ sample_exports1 _ (Some Isolate_New)
             (Some (ValueRef 101)) None
             {| ef_index := 1; ef_export_id := 2; ef_thread := 2%nat; ef_recv := None |}).
    + apply Exports_later_refl.
    + reflexivity.
Defined.

(** ** Preemption *)

(** C5.  From tick counter 0 with preemption eligibility on, 8
    consecutive [TimerTick]s issue exactly one interrupt request (none
    during the first seven) and leave the counter at 0; with eligibility
    off [TimerTick] changes nothing. *)
Theorem timer_ticks_request_one_interrupt (t : Thread) :
  (irq_ticks_counter_ t = 0 -> v8_interrupt_enabled_ t = true ->
   is_Some (iv8_ t) ->
   (exists t', TimerTicks 8 t = Ok t' /\
               irq_ticks_counter_ t' = 0 /\
               interrupt_requests t' = interrupt_requests t ++ [this_ t]) /\
   (forall n, (n < 8)%nat ->
      exists t', TimerTicks n t = Ok t' /\
                 interrupt_requests t' = interrupt_requests t)) /\
  (v8_interrupt_enabled_ t = false -> TimerTick t = Ok t).
Proof.
  split.
  - intros Hcounter Henabled [iv8 Hiv8].
    destruct t; simpl in *; subst. split.
    + eexists. split; [vm_compute; reflexivity|]. split; reflexivity.
    + intros n Hn.
      do 8 (destruct n as [|n]; [eexists; split; reflexivity|]).
      lia.
  - intros Hdisabled. unfold TimerTick. rewrite Hdisabled. reflexivity.
Qed.

Lemma timer_ticks_request_one_interrupt_witness :
  (exists t', TimerTicks 8 sample_running = Ok t' /\
              irq_ticks_counter_ t' = 0 /\
              interrupt_requests t' = [2%nat]) /\
  TimerTick sample_thread = Ok sample_thread.
Proof.
  split.
  - apply (proj1 (timer_ticks_request_one_interrupt sample_running)).
    + reflexivity.
    + reflexivity.
    + eexists; reflexivity.
  - apply (proj2 (timer_ticks_request_one_interrupt sample_thread)).
    reflexivity.
Defined.

(** ** Life cycle *)

Lemma SetUp_twice_fatal t w :
  type_ t <> IDLE -> is_Some (iv8_ t) ->
  SetUp t w = Fatal (Assert "nullptr == iv8_").
Proof.
  intros Htype [iv8 Hiv8]. unfold SetUp.
  rewrite bool_decide_eq_false_2 by exact Htype.
  rewrite Hiv8. reflexivity.
Qed.

Lemma TearDown_Ok_thread E t w t1 w1 :
  TearDown E t w = Ok (t1, w1) ->
  type_ t1 = TERMINATED /\
  terminate_ t1 = terminate_ t /\ ref_count_ t1 = ref_count_ t.
Proof.
  unfold TearDown. intros H. inv_ok H. subst t1. auto.
Qed.

(** C9.  [SetUp] on a non-IDLE thread whose isolate already exists, in
    particular a second [SetUp] after a first, and a second [TearDown]
    after a first has set the type to TERMINATED, each end in a failed
    assertion. *)
Theorem second_SetUp_or_TearDown_is_fatal E t w w' :
  (type_ t <> IDLE -> is_Some (iv8_ t) ->
   SetUp t w = Fatal (Assert "nullptr == iv8_")) /\
  (type_ t <> IDLE -> forall t1 w1, SetUp t w = Ok (t1, w1) ->
   SetUp t1 w' = Fatal (Assert "nullptr == iv8_")) /\
  (forall t1 w1, TearDown E t w = Ok (t1, w1) ->
   type_ t1 = TERMINATED /\
   TearDown E t1 w' = Fatal (Assert "ThreadType::DEFAULT == type_")).
Proof.
  split; [|split].
  - apply SetUp_twice_fatal.
  - intros Htype t1 w1 H. unfold SetUp in H.
    rewrite bool_decide_eq_false_2 in H by exact Htype.
    inv_ok H. subst t1.
    apply SetUp_twice_fatal; simpl; eauto.
  - intros t1 w1 H. apply TearDown_Ok_thread in H as (Htype & _).
    split; [exact Htype|].
    unfold TearDown. rewrite Htype. reflexivity.
Qed.

Lemma second_SetUp_or_TearDown_is_fatal_witness :
  SetUp sample_thread (sample_world []) = Fatal (Assert "nullptr == iv8_") /\
  (exists t1 w1, SetUp sample_new (sample_world []) = Ok (t1, w1) /\
     SetUp t1 (sample_world []) = Fatal (Assert "nullptr == iv8_")) /\
  (exists t1 w1, TearDown sample_engine sample_child (sample_world []) = Ok (t1, w1) /\
     TearDown sample_engine t1 w1 = Fatal (Assert "ThreadType::DEFAULT == type_")).
Proof.
  split; [|split].
  - apply (proj1 (second_SetUp_or_TearDown_is_fatal
                    sample_engine sample_thread (sample_world []) (sample_world []))).
    + discriminate.
    + eexists; reflexivity.
  - eexists _, _. split; [reflexivity|].
    eapply (proj1 (proj2 (second_SetUp_or_TearDown_is_fatal
                    sample_engine sample_new (sample_world []) (sample_world [])))).
    + discriminate.
    + reflexivity.
  - eexists _, _. split; [vm_compute; reflexivity|].
    eapply (proj2 (proj2 (second_SetUp_or_TearDown_is_fatal
                    sample_engine sample_child (sample_world []) _))).
    vm_compute; reflexivity.
Defined.

(** ** [Run]: the liveness count and the termination flag *)

(** Nothing that [Run] does outside script code touches the liveness
    count or the termination flag before the final test.  A property of
    the two that script code keeps is therefore kept by the whole batch. *)
Arguments guarded : simpl never.

Section Liveness.

Variable E : Engine.
Variable P : Thread -> Prop.

Hypothesis P_liveness : forall t t',
  ref_count_ t' = ref_count_ t -> terminate_ t' = terminate_ t -> P t -> P t'.
Hypothesis P_script : forall c t w, P t -> P (script E c t w).1.1.

Lemma enter_script_keeps c t w trycatch :
  P t -> P (enter_script E c (t, w, trycatch)).1.1.
Proof.
  intros HP. unfold enter_script.
  specialize (P_script c t w HP).
  destruct (script E c t w) as [[t' w'] thrown]. exact P_script.
Qed.

Lemma script_calls_keep calls : forall st,
  P st.1.1 -> P (foldl (fun st c => enter_script E c st) st calls).1.1.
Proof.
  induction calls as [|c calls IH]; intros [[t w] trycatch] HP; simpl.
  - exact HP.
  - apply IH. apply enter_script_keeps. exact HP.
Qed.

Lemma guarded_keeps calls t w trycatch :
  P t -> P (guarded E calls (t, w, trycatch)).1.1.
Proof.
  intros HP. unfold guarded.
  pose proof (script_calls_keep calls (V8InterruptScope_enter t, w, trycatch)) as H.
  destruct (foldl _ _ calls) as [[t' w'] trycatch'].
  apply (P_liveness t'); [reflexivity | reflexivity |].
  apply H. simpl. apply (P_liveness t); [reflexivity | reflexivity | exact HP].
Qed.

Lemma dispatch_keeps message st st' :
  dispatch E message st = Ok st' -> P st.1.1 -> P st'.1.1.
Proof.
  destruct st as [[t w] trycatch]. unfold dispatch. simpl.
  intros H HP.
  destruct (msg_type message); unfold TakePromise, TakeTimeoutData in H;
    try (inv_ok H; subst st';
         first [ exact HP
               | apply guarded_keeps
               | idtac ];
         first [ exact HP
               | apply (P_liveness t); [reflexivity | reflexivity | exact HP] ]).
  (* EVALUATE: the outcome of compiling decides *)
  inv_ok H. destruct (Compile E a) as [compiled|ex]; inv_ok H; subst st'.
  - apply guarded_keeps. exact HP.
  - exact HP.
Qed.

Lemma dispatch_all_keeps messages : forall st st',
  dispatch_all E messages st = Ok st' -> P st.1.1 -> P st'.1.1.
Proof.
  induction messages as [|message rest IH]; intros st st' H HP; simpl in H.
  - inv_ok H. by subst.
  - inv_ok H. eapply IH; [exact H|]. eapply dispatch_keeps; eauto.
Qed.

End Liveness.

(** Promotion of timeouts changes the thread in [timeouts_] only. *)
Lemma promote_timeouts_thread fuel ticks_now : forall t w t1 w1,
  promote_timeouts fuel ticks_now t w = Ok (t1, w1) ->
  t1 = set_timeouts_ (timeouts_ t1) t.
Proof.
  induction fuel as [|fuel IH]; intros t w t1 w1 H; simpl in H.
  - destruct (Timeouts_Elapsed ticks_now (timeouts_ t)); inv_ok H; subst;
      destruct t1; reflexivity.
  - destruct (Timeouts_Elapsed ticks_now (timeouts_ t)).
    + inv_ok H. destruct a as [timeout_id ts]. inv_ok H.
      apply IH in H. rewrite H. reflexivity.
    + inv_ok H. subst. destruct t1; reflexivity.
Qed.

Lemma take_batch_thread t w messages t1 w1 :
  take_batch t w = Ok (messages, t1, w1) ->
  t1 = set_timeouts_ (timeouts_ t1) t.
Proof.
  unfold take_batch. intros H. inv_ok H.
  destruct a0 as [t' w']. inv_ok H. destruct a0 as [ms w'']. inv_ok H. subst.
  eapply promote_timeouts_thread; eauto.
Qed.

Lemma ensure_context_thread E t w :
  ref_count_ (ensure_context E t w).1 = ref_count_ t /\
  terminate_ (ensure_context E t w).1 = terminate_ t /\
  context_ (ensure_context E t w).1 <> None.
Proof.
  unfold ensure_context. destruct (context_ t) eqn:Hc; simpl; rewrite ?Hc; auto.
Qed.

(** What a [Run] that returns has done. *)
Lemma Run_Ok E t w r :
  Run E t w = Ok r ->
  (type_ t = IDLE /\ r = (true, t, w)) \/
  exists messages t1 w1,
    type_ t = DEFAULT /\ is_Some (iv8_ t) /\ is_Some (tpl_cache_ t) /\
    take_batch t w = Ok (messages, t1, w1) /\
    ((messages = [] /\ r = (true, t1, w1)) \/
     (messages <> [] /\
      exists st, dispatch_all E messages (ensure_context E t1 w1, None) = Ok st /\
                 r = finish st)).
Proof.
  unfold Run. intros H. inv_ok H. apply RT_ASSERT_Ok in Ha.
  apply bool_decide_eq_true in Ha.
  case_bool_decide as Hidle.
  - left. inv_ok H. auto.
  - right. inv_ok H. destruct a2 as [[messages t1] w1].
    apply assert_ptr_Ok in Ha0, Ha1.
    exists messages, t1, w1.
    repeat split; eauto; [destruct (type_ t); congruence|].
    destruct messages as [|message rest].
    + left. inv_ok H. auto.
    + right. split; [discriminate|].
      destruct (ensure_context E t1 w1) as [t2 w2].
      inv_ok H. eauto.
Qed.

(** A [Run] on a thread that was set up returns as soon as its batch
    can be taken and dispatched. *)
Lemma Run_DEFAULT E t w messages t1 w1 :
  type_ t = DEFAULT -> is_Some (iv8_ t) -> is_Some (tpl_cache_ t) ->
  take_batch t w = Ok (messages, t1, w1) ->
  (messages = [] -> Run E t w = Ok (true, t1, w1)) /\
  (messages <> [] -> forall st,
     dispatch_all E messages (ensure_context E t1 w1, None) = Ok st ->
     Run E t w = Ok (finish st)).
Proof.
  intros Htype [iv8 Hiv8] [tpl Htpl] Hbatch.
  unfold Run. rewrite Htype, Hiv8, Htpl, Hbatch. simpl. split.
  - intros ->. reflexivity.
  - intros Hne st Hst. destruct messages as [|message rest]; [done|].
    pose proof (ensure_context_thread E t1 w1) as (_ & _ & Hctx).
    destruct (ensure_context E t1 w1) as [t2 w2]. simpl in Hctx.
    rewrite bool_decide_eq_true_2 by exact Hctx. simpl.
    unfold dispatch_all in Hst. fold dispatch_all in Hst.
    simpl in Hst. rewrite Hst. reflexivity.
Qed.

Lemma finish_false t w trycatch :
  stop_pending t ->
  finish (t, w, trycatch) =
    (false, set_terminate_ true t,
     printf (if terminate_ t then P_terminate_exit_called
             else P_terminate_refcount_0) w).
Proof.
  intros Hstop. unfold finish.
  assert (Hcond : bool_decide (0 = ref_count_ t) || terminate_ t = true).
  { destruct Hstop as [Hz | Ht].
    - rewrite bool_decide_eq_true_2 by congruence. reflexivity.
    - rewrite Ht. apply orb_true_r. }
  rewrite Hcond. destruct (terminate_ t); reflexivity.
Qed.

Lemma finish_terminate st b t' w' :
  finish st = (b, t', w') ->
  (b = false -> terminate_ t' = true) /\
  (terminate_ st.1.1 = true -> b = false).
Proof.
  destruct st as [[t w] trycatch]. unfold finish. simpl.
  destruct (bool_decide (0 = ref_count_ t) || terminate_ t) eqn:Hcond.
  - intros H. injection H as <- <- <-. auto.
  - intros H. injection H as <- <- <-. split; [discriminate|].
    intros Ht. rewrite Ht, orb_true_r in Hcond. discriminate.
Qed.

Lemma take_batch_liveness t w messages t1 w1 :
  take_batch t w = Ok (messages, t1, w1) ->
  ref_count_ t1 = ref_count_ t /\ terminate_ t1 = terminate_ t.
Proof.
  intros H. apply take_batch_thread in H. rewrite H. auto.
Qed.

Lemma stop_pending_liveness t t' :
  ref_count_ t' = ref_count_ t -> terminate_ t' = terminate_ t ->
  stop_pending t -> stop_pending t'.
Proof. unfold stop_pending. intros -> ->. auto. Qed.

Lemma terminated_liveness t t' :
  ref_count_ t' = ref_count_ t -> terminate_ t' = terminate_ t ->
  terminate_ t = true -> terminate_ t' = true.
Proof. congruence. Qed.

(** C1 (amended: a non-empty batch).  For a thread that was set up and
    is neither IDLE nor TERMINATED, a [Run] that takes a non-empty batch
    and finds, once every message of the batch has been dispatched, the
    liveness count zero or the termination flag set, returns false; a
    [Run] that takes an empty batch returns true, whatever the count and
    the flag. *)
Theorem Run_stops_after_non_empty_batch E t w messages t1 w1 :
  type_ t <> IDLE -> type_ t <> TERMINATED ->
  is_Some (iv8_ t) -> is_Some (tpl_cache_ t) ->
  take_batch t w = Ok (messages, t1, w1) ->
  (messages = [] -> Run E t w = Ok (true, t1, w1)) /\
  (messages <> [] -> forall st,
     dispatch_all E messages (ensure_context E t1 w1, None) = Ok st ->
     stop_pending st.1.1 ->
     Run E t w =
       Ok (false, set_terminate_ true st.1.1,
           printf (if terminate_ st.1.1 then P_terminate_exit_called
                   else P_terminate_refcount_0) st.1.2)).
Proof.
  intros Hidle Hterm Hiv8 Htpl Hbatch.
  assert (Htype : type_ t = DEFAULT) by (destruct (type_ t); congruence).
  destruct (Run_DEFAULT E t w messages t1 w1 Htype Hiv8 Htpl Hbatch) as [Hempty Hfull].
  split; [exact Hempty|].
  intros Hne st Hst Hstop.
  rewrite (Hfull Hne st Hst).
  destruct st as [[t2 w2] trycatch].
  rewrite (finish_false t2 w2 trycatch Hstop). reflexivity.
Qed.

Lemma Run_stops_after_non_empty_batch_witness :
  Run sample_engine sample_thread (sample_world [sample_evaluate 7]) =
    Ok (false,
        set_terminate_ true (set_context_ (Some (ValueRef 4)) sample_thread),
        printf P_terminate_refcount_0 (printf P_new_context (sample_world []))).
Proof.
  refine (proj2 (Run_stops_after_non_empty_batch sample_engine sample_thread
            (sample_world [sample_evaluate 7]) [sample_evaluate 7]
            sample_thread (sample_world []) _ _ _ _ _) _
            (set_context_ (Some (ValueRef 4)) sample_thread,
             printf P_new_context (sample_world []), None) _ _).
  - discriminate.
  - discriminate.
  - eexists; reflexivity.
  - eexists; reflexivity.
  - vm_compute; reflexivity.
  - discriminate.
  - vm_compute; reflexivity.
  - left; reflexivity.
Defined.

(** C1 as stated fails on an empty batch: the thread's count is zero,
    nothing is queued, and [Run] returns true. *)
Lemma Run_empty_batch_counterexample :
  type_ sample_thread = DEFAULT /\
  ref_count_ sample_thread = 0 /\
  Run sample_engine sample_thread (sample_world []) =
    Ok (true, sample_thread, sample_world []).
Proof. split; [reflexivity | split; [reflexivity | vm_compute; reflexivity]]. Qed.

(** ** The termination flag, once set *)

Section Sticky.

Variable E : Engine.
Hypothesis script_keeps_flag : forall c t w,
  terminate_ t = true -> terminate_ (script E c t w).1.1 = true.

Lemma Run_keeps_flag t w b t' w' :
  terminate_ t = true -> Run E t w = Ok (b, t', w') -> terminate_ t' = true.
Proof.
  intros Hflag H.
  apply Run_Ok in H as [[_ H] | (messages & t1 & w1 & _ & _ & _ & Hbatch & H)].
  - injection H as _ <- _. exact Hflag.
  - apply take_batch_liveness in Hbatch as [_ Ht1].
    destruct H as [[_ H] | (_ & st & Hst & H)].
    + injection H as _ <- _. congruence.
    + assert (Hst' : terminate_ st.1.1 = true).
      { eapply (dispatch_all_keeps E (fun t => terminate_ t = true)
                  terminated_liveness script_keeps_flag); [exact Hst|].
        simpl. pose proof (ensure_context_thread E t1 w1) as (_ & Ht & _).
        congruence. }
      symmetry in H. apply finish_terminate in H as [Hfalse Htrue].
      apply Hfalse, Htrue, Hst'.
Qed.

Lemma operate_keeps_flag op t w t' w' :
  terminate_ t = true -> operate E op (t, w) = Ok (t', w') ->
  terminate_ t' = true.
Proof.
  intros Hflag H. destruct op; simpl in H.
  - inv_ok H. subst. unfold SetTimeout in Ha. inv_ok Ha.
    case_bool_decide; [discriminate|]. inv_ok Ha. subst. exact Hflag.
  - unfold SetUp in H. case_bool_decide.
    + inv_ok H. congruence.
    + inv_ok H. subst. exact Hflag.
  - inv_ok H. destruct a as [[b t1] w1]. inv_ok H. subst.
    eapply Run_keeps_flag; eauto.
  - inv_ok H. subst. unfold TimerTick in Ha.
    destruct (negb (v8_interrupt_enabled_ t)); [inv_ok Ha; congruence|].
    case_bool_decide; inv_ok Ha; subst; exact Hflag.
  - apply TearDown_Ok_thread in H as (_ & Ht & _). congruence.
Qed.

Lemma operate_all_keeps_flag ops : forall t w t' w',
  terminate_ t = true -> operate_all E ops (t, w) = Ok (t', w') ->
  terminate_ t' = true.
Proof.
  induction ops as [|op ops IH]; intros t w t' w' Hflag H; simpl in H.
  - inv_ok H. congruence.
  - inv_ok H. destruct a as [t1 w1].
    eapply IH; [|exact H]. eapply operate_keeps_flag; eauto.
Qed.

Lemma Run_false_sets_flag t w t' w' :
  Run E t w = Ok (false, t', w') -> terminate_ t' = true.
Proof.
  intros H.
  apply Run_Ok in H as [[_ H] | (messages & t1 & w1 & _ & _ & _ & _ & H)];
    [discriminate|].
  destruct H as [[_ H] | (_ & st & _ & H)]; [discriminate|].
  symmetry in H. apply finish_terminate in H as [Hfalse _]. auto.
Qed.

End Sticky.

(** C10.  A [Run] that returns false has set the termination flag; no
    operation of the thread ([SetTimeout], [SetUp], [Run], [TimerTick],
    [TearDown]) clears the flag once it is set, script code not clearing
    it either; therefore, after a [Run] has returned false and after any
    further operations, a [Run] that takes and dispatches a non-empty
    batch returns false as well. *)
Theorem termination_flag_is_sticky E :
  (forall c t w, terminate_ t = true -> terminate_ (script E c t w).1.1 = true) ->
  (forall t w t' w', Run E t w = Ok (false, t', w') -> terminate_ t' = true) /\
  (forall op t w t' w',
     terminate_ t = true -> operate E op (t, w) = Ok (t', w') ->
     terminate_ t' = true) /\
  (forall t w t1 w1 ops t2 w2 messages t3 w3,
     Run E t w = Ok (false, t1, w1) ->
     operate_all E ops (t1, w1) = Ok (t2, w2) ->
     type_ t2 <> IDLE ->
     take_batch t2 w2 = Ok (messages, t3, w3) ->
     messages <> [] ->
     (forall b t4 w4, Run E t2 w2 = Ok (b, t4, w4) -> b = false) /\
     (type_ t2 <> TERMINATED -> is_Some (iv8_ t2) -> is_Some (tpl_cache_ t2) ->
      forall st,
        dispatch_all E messages (ensure_context E t3 w3, None) = Ok st ->
        exists t4 w4, Run E t2 w2 = Ok (false, t4, w4))).
Proof.
  intros Hscript. split; [|split].
  - intros t w t' w'. apply Run_false_sets_flag.
  - intros op t w t' w'. apply operate_keeps_flag. exact Hscript.
  - intros t w t1 w1 ops t2 w2 messages t3 w3 HRun Hops Hidle Hbatch Hne.
    apply Run_false_sets_flag in HRun.
    pose proof (operate_all_keeps_flag E Hscript ops _ _ _ _ HRun Hops) as Hflag.
    assert (Hfinish : forall st,
               dispatch_all E messages (ensure_context E t3 w3, None) = Ok st ->
               (finish st).1.1 = false).
    { intros st Hst.
      assert (Hst' : terminate_ st.1.1 = true).
      { eapply (dispatch_all_keeps E (fun t => terminate_ t = true)
                  terminated_liveness Hscript); [exact Hst|].
        simpl. pose proof (ensure_context_thread E t3 w3) as (_ & Ht & _).
        apply take_batch_liveness in Hbatch as [_ Ht3]. congruence. }
      destruct (finish st) as [[b t4] w4] eqn:Hf.
      apply finish_terminate in Hf as [_ Htrue]. simpl. auto. }
    split.
    + intros b t4 w4 HRun2.
      apply Run_Ok in HRun2 as [[Hi _] | (ms & t3' & w3' & _ & _ & _ & Hb & H)];
        [done|].
      rewrite Hbatch in Hb. injection Hb as <- <- <-.
      destruct H as [[Hnil _] | (_ & st & Hst & Hr)]; [done|].
      specialize (Hfinish st Hst). rewrite <- Hr in Hfinish. exact Hfinish.
    + intros Hterm Hiv8 Htpl st Hst.
      assert (Htype : type_ t2 = DEFAULT) by (destruct (type_ t2); congruence).
      destruct (Run_DEFAULT E t2 w2 messages t3 w3 Htype Hiv8 Htpl Hbatch) as [_ Hfull].
      specialize (Hfull Hne st Hst). specialize (Hfinish st Hst).
      destruct (finish st) as [[b t4] w4]. simpl in Hfinish. subst b. eauto.
Qed.

Lemma sample_script_keeps_flag c t w :
  terminate_ t = true -> terminate_ (script sample_engine c t w).1.1 = true.
Proof.
  intros Hflag. destruct c as [[a]| | | |]; simpl; try exact Hflag.
  repeat case_bool_decide; simpl; auto.
Qed.

Lemma termination_flag_is_sticky_witness :
  exists t1 w1 t2 w2,
    Run sample_engine sample_timer (sample_world [sample_evaluate 7]) = Ok (false, t1, w1) /\
    operate_all sample_engine [Op_TimerTick; Op_SetTimeout 9 0] (t1, w1) = Ok (t2, w2) /\
    exists t4 w4, Run sample_engine t2 w2 = Ok (false, t4, w4).
Proof.
  eexists _, _, _, _.
  split; [vm_compute; reflexivity|].
  split; [vm_compute; reflexivity|].
  eapply (proj2 (proj2 (proj2 (termination_flag_is_sticky sample_engine
            sample_script_keeps_flag))
            sample_timer (sample_world [sample_evaluate 7]) _ _
            [Op_TimerTick; Op_SetTimeout 9 0] _ _
            [timeout_message 9] _ _ _ _ _ _ _)).
  1: discriminate.
  1-2: eexists; reflexivity.
  Unshelve.
  all: try discriminate.
  (* the batch is taken first, then dispatched *)
  all: try (vm_compute; reflexivity).
  all: vm_compute; reflexivity.
Defined.


(** ** Exceptions thrown by script code *)

Lemma script_calls_fst E calls : forall st1 st2 : RunState,
  st1.1 = st2.1 ->
  (foldl (fun st c => enter_script E c st) st1 calls).1 =
  (foldl (fun st c => enter_script E c st) st2 calls).1.
Proof.
  induction calls as [|c calls IH]; intros [[t1 w1] tc1] [[t2 w2] tc2] H;
    simpl in *; [exact H|].
  apply IH. injection H as -> ->. unfold enter_script.
  destruct (script E c t2 w2) as [[t' w'] thrown]. reflexivity.
Qed.

Lemma guarded_fst E calls t w tc1 tc2 :
  (guarded E calls (t, w, tc1)).1 = (guarded E calls (t, w, tc2)).1.
Proof.
  unfold guarded.
  pose proof (script_calls_fst E calls (V8InterruptScope_enter t, w, tc1)
                (V8InterruptScope_enter t, w, tc2) eq_refl) as H.
  set (f := fun (st : RunState) (c : ScriptCall) => enter_script E c st) in *.
  destruct (foldl f (V8InterruptScope_enter t, w, tc1) calls) as [[t1 w1] tc1'].
  destruct (foldl f (V8InterruptScope_enter t, w, tc2) calls) as [[t2 w2] tc2'].
  simpl in *. congruence.
Qed.

(** What the [TryCatch] holds has no part in how a message is
    dispatched: a message is dispatched after an exception was caught
    just as it is after none was. *)
Lemma dispatch_after_exception E message t w tc1 tc2 st1 :
  dispatch E message (t, w, tc1) = Ok st1 ->
  exists st2, dispatch E message (t, w, tc2) = Ok st2 /\ st2.1 = st1.1.
Proof.
  unfold dispatch. intros H.
  destruct (msg_type message); unfold TakePromise, TakeTimeoutData in *;
    try (inv_ok H; subst st1;
         repeat (match goal with Hx : _ = Ok _ |- _ => rewrite Hx; clear Hx end;
                 simpl);
         simpl; eexists; split; [reflexivity|];
         first [reflexivity | apply guarded_fst]).
  inv_ok H. rewrite Ha. simpl.
  destruct (Compile E a) as [compiled|ex]; inv_ok H; subst st1;
    eexists; (split; [reflexivity|]); [apply guarded_fst | reflexivity].
Qed.

Lemma dispatch_all_after_exception E messages : forall t w tc1 tc2 st1,
  dispatch_all E messages (t, w, tc1) = Ok st1 ->
  exists st2, dispatch_all E messages (t, w, tc2) = Ok st2 /\ st2.1 = st1.1.
Proof.
  induction messages as [|message rest IH]; intros t w tc1 tc2 st1 H; simpl in H.
  - inv_ok H. subst. eexists. split; reflexivity.
  - inv_ok H. destruct (dispatch_after_exception E _ _ _ _ tc2 _ Ha) as (st2 & Hd & Heq).
    destruct a as [[ta wa] tca]. destruct st2 as [[tb wb] tcb].
    simpl in Heq. injection Heq as -> ->.
    destruct (IH _ _ _ tcb _ H) as (st3 & Hd3 & Heq3).
    exists st3. split; [|exact Heq3].
    cbn [dispatch_all]. rewrite Hd. exact Hd3.
Qed.

(** Nor has it any part in what [Run] returns. *)
Lemma finish_ignores_exception t w tc1 tc2 :
  (finish (t, w, tc1)).1.1 = (finish (t, w, tc2)).1.1.
Proof.
  unfold finish. destruct (bool_decide (0 = ref_count_ t) || terminate_ t); reflexivity.
Qed.

(** When [Run] returns true, the exception held is printed. *)
Lemma finish_true_logs t w ex :
  (finish (t, w, Some ex)).1.1 = true ->
  finish (t, w, Some ex) = (true, t, log_exception ex w).
Proof.
  unfold finish. destruct (bool_decide (0 = ref_count_ t) || terminate_ t);
    [discriminate | reflexivity].
Qed.

(** C7 (the code departs from the claim).  On a thread whose liveness
    count is zero, a [Run] whose batch holds a script that throws returns
    false and prints nothing about the exception; the same batch on the
    thread holding a reference returns true and prints it. *)
Theorem Run_drops_exception_when_stopping :
  (exists t', Run sample_engine sample_thread (sample_world [sample_evaluate 50]) =
     Ok (false, t',
         printf P_terminate_refcount_0 (printf P_new_context (sample_world [])))) /\
  (exists t', Run sample_engine sample_live (sample_world [sample_evaluate 50]) =
     Ok (true, t',
         printf (P_stack "Error: boom at init.js:3")
           (printf (P_uncaught_at "init.js" 3 "Error: boom")
              (printf P_new_context (sample_world []))))).
Proof.
  split; eexists; vm_compute; reflexivity.
Qed.

(** ** [TearDown] and the parent's queue *)

Lemma PushMessage_Some n m w lptr :
  engine_threads w !! n = Some lptr ->
  PushMessage (Some n) m w =
    Ok (set_engine_threads
          (<[n := EngineThread_PushMessage m lptr]> (engine_threads w)) w).
Proof. intros Hn. unfold PushMessage. simpl. rewrite Hn. reflexivity. Qed.

Lemma PushMessage_queue n m w lptr :
  msg_type m <> TIMEOUT_EVENT ->
  engine_threads w !! n = Some lptr ->
  exists w', PushMessage (Some n) m w = Ok w' /\
    queue_of n w' = queue_of n w ++ [m] /\
    (forall n', n' <> n -> queue_of n' w' = queue_of n' w) /\
    current_thread w' = current_thread w /\
    console w' = console w.
Proof.
  intros Hty Hn. rewrite (PushMessage_Some _ _ _ _ Hn).
  eexists. split; [reflexivity|]. unfold queue_of. simpl.
  rewrite lookup_insert_eq, Hn. simpl. repeat split.
  - destruct (msg_type m); congruence.
  - intros n' Hne. rewrite lookup_insert_ne by congruence. reflexivity.
Qed.

Lemma TearDown_message_type E t recv :
  msg_type (TearDown_message E t recv) <> TIMEOUT_EVENT.
Proof. discriminate. Qed.

Lemma PushMessage_Ok h m w w' :
  PushMessage h m w = Ok w' ->
  exists n lptr, h = Some n /\ engine_threads w !! n = Some lptr.
Proof.
  unfold PushMessage. intros H. inv_ok H.
  apply deref_Ok in Ha, Ha0. eauto.
Qed.

Lemma queue_of_printf n p w : queue_of n (printf p w) = queue_of n w.
Proof. reflexivity. Qed.

(** What a [TearDown] that returns has done to the queues. *)
Lemma TearDown_Ok_queues E t w t' w' :
  TearDown E t w = Ok (t', w') ->
  exists n lptr recv,
    parent_thread_ t = Some n /\
    engine_threads w !! n = Some lptr /\ et_thread lptr = Some recv /\
    queue_of n w' = queue_of n w ++ [TearDown_message E t recv] /\
    (forall n', n' <> n -> queue_of n' w' = queue_of n' w).
Proof.
  unfold TearDown. intros H. inv_ok H.
  apply deref_Ok in Ha3, Ha4. apply assert_ptr_Ok in Ha5.
  destruct (PushMessage_queue a3 (TearDown_message E t a5) w a4
              (TearDown_message_type E t a5) Ha4)
    as (w1 & Hpush & Hq & Hothers & _).
  rewrite Ha3, Hpush in Ha6. injection Ha6 as <-.
  exists a3, a4, a5. subst w'. rewrite !queue_of_printf. auto.
Qed.

(** When the assertions of [TearDown] hold, it returns. *)
Lemma TearDown_returns E t w iv8 n lptr recv :
  type_ t = DEFAULT -> iv8_ t = Some iv8 -> iso_data0 iv8 = Some (this_ t) ->
  is_Some (tpl_cache_ t) -> thread_mgr_ t = true ->
  current_thread w = Some (this_ t) ->
  parent_thread_ t = Some n -> engine_threads w !! n = Some lptr ->
  et_thread lptr = Some recv ->
  exists t' w', TearDown E t w = Ok (t', w').
Proof.
  intros Htype Hiv8 Hdata [tpl Htpl] Hmgr Hcur Hparent Hn Hrecv.
  destruct (PushMessage_queue n (TearDown_message E t recv) w lptr
              (TearDown_message_type E t recv) Hn)
    as (w1 & Hpush & _ & _ & Hcur1 & _).
  unfold TearDown.
  rewrite Htype, Hiv8, Htpl, Hparent, Hmgr. simpl.
  rewrite Hdata, Hn. simpl.
  rewrite bool_decide_eq_true_2 by reflexivity. simpl.
  rewrite Hrecv. simpl. rewrite Hpush. simpl.
  rewrite Hcur1, Hcur. rewrite bool_decide_eq_true_2 by reflexivity. simpl.
  eauto.
Qed.

(** [TearDown] reads the parent handle and dereferences it with no test
    for a parent: on a thread without one it never completes. *)
Lemma TearDown_needs_parent E t w :
  parent_thread_ t = None -> exists f, TearDown E t w = Fatal f.
Proof.
  intros Hnone. destruct (TearDown E t w) as [[t' w']|f] eqn:H; [|eauto].
  apply TearDown_Ok_queues in H as (n & _ & _ & Hp & _). congruence.
Qed.

(** C2 (the code departs from the claim).  A thread without a parent
    cannot be torn down.  The thread is constructed, set up and run on
    one SET_ARGUMENTS_NOPARENT message; [Run] returns false, the thread
    has its arguments and no parent, the current thread of the manager is
    this thread; [TearDown] then ends in the dereference of the empty
    parent handle (line 104), before any queue is touched and before any
    of its releases, instead of completing. *)
Theorem parentless_thread_cannot_be_torn_down :
  exists t0 t1 w1 t2 w2,
    Thread_new 2%nat true (Some 1%nat)
      (sample_world [sample_message SET_ARGUMENTS_NOPARENT 0]) = Ok t0 /\
    SetUp t0 (sample_world [sample_message SET_ARGUMENTS_NOPARENT 0]) = Ok (t1, w1) /\
    Run sample_engine t1 w1 = Ok (false, t2, w2) /\
    args_ t2 = Some (ValueRef 8) /\
    parent_thread_ t2 = None /\
    current_thread w2 = Some (this_ t2) /\
    TearDown sample_engine t2 w2 = Fatal (NullDereference "thread.get()").
Proof.
  eexists _, _, _, _, _.
  split; [vm_compute; reflexivity|].
  split; [vm_compute; reflexivity|].
  split; [vm_compute; reflexivity|].
  repeat split.
Qed.

(** The error code of [MoveValue] reaches nothing: two engines whose
    [MoveValue] leave the same data behave alike in [TearDown], whatever
    error codes they return. *)
Lemma TearDown_ignores_serialize_error E1 E2 t w :
  (forall exporter recv v,
     (MoveValue E1 exporter recv v).2 = (MoveValue E2 exporter recv v).2) ->
  TearDown E1 t w = TearDown E2 t w.
Proof.
  intros Hdata.
  assert (Hmsg : forall recv, TearDown_message E1 t recv = TearDown_message E2 t recv).
  { intros recv. unfold TearDown_message.
    destruct (exit_value_ t) as [v|]; [|reflexivity].
    specialize (Hdata (this_ t) recv v).
    destruct (MoveValue E1 (this_ t) recv v), (MoveValue E2 (this_ t) recv v).
    simpl in Hdata. congruence. }
  unfold TearDown.
  destruct (RT_ASSERT _ "ThreadType::DEFAULT == type_"); simpl; [|reflexivity].
  destruct (assert_ptr (iv8_ t) _); simpl; [|reflexivity].
  destruct (RT_ASSERT _ "iv8_->GetData(0) == this"); simpl; [|reflexivity].
  destruct (assert_ptr (tpl_cache_ t) _); simpl; [|reflexivity].
  destruct (deref (parent_thread_ t) _); simpl; [|reflexivity].
  destruct (deref (engine_threads w !! _) _); simpl; [|reflexivity].
  destruct (assert_ptr (et_thread _) _); simpl; [|reflexivity].
  rewrite Hmsg. reflexivity.
Qed.

(** C3 (the code departs from the claim).  The exit value of the thread
    cannot be serialized: [MoveValue] reports an error.  [TearDown]
    completes and the parent receives a FUNCTION_RETURN_RESOLVE message
    that is the very message it receives from the same thread with no
    exit value at all; nothing in it tells of the failure. *)
Theorem TearDown_drops_serialize_error :
  (MoveValue sample_engine 2%nat 1%nat (ValueRef 13)).1 = SerializeError_FAILED 1 /\
  exists t' w',
    TearDown sample_engine sample_child_failing (sample_world []) = Ok (t', w') /\
    queue_of 0 w' =
      [ThreadMessage_new FUNCTION_RETURN_RESOLVE (Some 1%nat) [] None 42] /\
    TearDown sample_engine sample_child (sample_world []) = Ok (t', w').
Proof.
  split; [reflexivity|].
  eexists _, _. split; [vm_compute; reflexivity|].
  split; vm_compute; reflexivity.
Qed.

(** ** Promotion of timeouts *)

Section Promotion.

Implicit Types (ts promoted : Timeouts) (x y : Z * Z).

Lemma Timeouts_earliest_None ts : Timeouts_earliest ts = None -> ts = [].
Proof.
  destruct ts as [|x r]; [reflexivity|]. simpl.
  destruct (Timeouts_earliest r); [case_bool_decide|]; discriminate.
Qed.

(** The earliest timeout is pending, and no pending one is due sooner. *)
Lemma Timeouts_earliest_Some ts x :
  Timeouts_earliest ts = Some x ->
  x ∈ ts /\ Forall (fun y => x.2 <= y.2) ts.
Proof.
  revert x. induction ts as [|y r IH]; intros x H; simpl in H; [discriminate|].
  destruct (Timeouts_earliest r) as [z|] eqn:Hr.
  - destruct (IH z eq_refl) as [Hin Hall].
    case_bool_decide as Hle; injection H as <-.
    + split; [left|]. constructor; [lia|].
      eapply Forall_impl; [exact Hall|]. simpl. intros; lia.
    + split; [by right|]. constructor; [lia | exact Hall].
  - injection H as <-. apply Timeouts_earliest_None in Hr as ->.
    split; [left|]. constructor; [lia | constructor].
Qed.

Lemma Timeouts_remove_Permutation ts x :
  x ∈ ts -> ts ≡ₚ x :: Timeouts_remove x ts.
Proof.
  induction ts as [|y r IH]; intros Hin; [by apply elem_of_nil in Hin|].
  simpl. case_bool_decide as Heq.
  - by subst.
  - apply elem_of_cons in Hin as [->|Hin]; [done|].
    rewrite (IH Hin) at 1. apply Permutation_swap.
Qed.

Lemma Timeouts_not_Elapsed ticks_now ts :
  Timeouts_Elapsed ticks_now ts = false ->
  Forall (fun y => ticks_now < y.2) ts.
Proof.
  unfold Timeouts_Elapsed. intros H.
  destruct (Timeouts_earliest ts) as [x|] eqn:Hx.
  - apply bool_decide_eq_false in H.
    apply Timeouts_earliest_Some in Hx as [_ Hall].
    eapply Forall_impl; [exact Hall|]. simpl. intros; lia.
  - apply Timeouts_earliest_None in Hx as ->. constructor.
Qed.

(** The loop of [Run]: it is left through its condition, every
    timeout it took had elapsed, none that it left has, and the
    messages for those it took are at the front of the thread's own
    queue, the one taken last first. *)
Lemma promote_timeouts_spec ticks_now n fuel : forall t w lptr,
  ethread_ t = Some n ->
  engine_threads w !! n = Some lptr ->
  (length (timeouts_ t) <= fuel)%nat ->
  exists promoted t1 w1 lptr1,
    promote_timeouts fuel ticks_now t w = Ok (t1, w1) /\
    ethread_ t1 = Some n /\
    engine_threads w1 !! n = Some lptr1 /\
    et_messages lptr1 =
      map (fun x => timeout_message x.1) (reverse promoted) ++ et_messages lptr /\
    timeouts_ t ≡ₚ promoted ++ timeouts_ t1 /\
    Forall (fun x => x.2 <= ticks_now) promoted /\
    Timeouts_Elapsed ticks_now (timeouts_ t1) = false.
Proof.
  induction fuel as [|fuel IH]; intros t w lptr Hn Hw Hfuel.
  - destruct (timeouts_ t) as [|x r] eqn:Hts; [|simpl in Hfuel; lia].
    exists [], t, w, lptr. simpl. rewrite Hts. simpl.
    repeat split; eauto.
  - simpl. destruct (Timeouts_Elapsed ticks_now (timeouts_ t)) eqn:Hel.
    + unfold Timeouts_Elapsed in Hel. unfold Timeouts_Take.
      destruct (Timeouts_earliest (timeouts_ t)) as [x|] eqn:Hx; [|discriminate].
      apply bool_decide_eq_true in Hel.
      apply Timeouts_earliest_Some in Hx as [Hin _].
      pose proof (Timeouts_remove_Permutation _ _ Hin) as Hperm.
      simpl. rewrite Hn.
      rewrite (PushMessage_Some n (timeout_message x.1) w lptr Hw). simpl.
      match goal with
      | |- context [promote_timeouts fuel ticks_now ?t' ?w'] =>
          destruct (IH t' w' (EngineThread_PushMessage (timeout_message x.1) lptr) Hn)
            as (promoted & t1 & w1 & lptr1 & Hrun & Hn1 & Hw1 & Hq & Hp & Hall & Hexit)
      end.
      { simpl. apply lookup_insert_eq. }
      { simpl. apply Permutation_length in Hperm. simpl in Hperm. lia. }
      exists (x :: promoted), t1, w1, lptr1.
      repeat split; try assumption.
      * rewrite Hq, reverse_cons, map_app, <- app_assoc. reflexivity.
      * rewrite Hperm. by constructor.
      * constructor; assumption.
    + exists [], t, w, lptr. simpl. repeat split; eauto.
Qed.

End Promotion.



(** The batch of the sample: the promoted timeout first, then the
    message that was queued. *)
Example sample_due_batch :
  exists t1 w1,
    take_batch sample_due (sample_world [sample_evaluate 7]) =
      Ok ([timeout_message 9; sample_evaluate 7], t1, w1).
Proof. eexists _, _. vm_compute. reflexivity. Qed.

(** ** Dispatch and the pending-operation tables *)

(** C8.  Spec-modelled tables.  Dispatch of IRQ_RAISE looks the handler
    of its index up and calls it, the table unchanged: the engine runs
    the handler on the thread as it was, and a second IRQ_RAISE for the
    index calls the same handler a second time (the handler having left
    its entry alone).  Dispatch of FUNCTION_RETURN_RESOLVE or
    FUNCTION_RETURN_REJECT takes the promise of its index out of the
    table and settles it: the engine runs the resolver on the thread
    without the entry, and a second message for the index finds no
    promise.  Dispatch of TIMEOUT_EVENT takes the callback of its index
    out of the table and calls it, and a second message for the index
    finds no callback.  Every call of script code is written out as the
    engine's [script] applied to the call. *)
Theorem pending_tables_on_dispatch E message t w trycatch :
  let index := msg_recv_index message in
  let on := set_v8_interrupt_enabled_ true in
  let off := set_v8_interrupt_enabled_ false in
  let caught (thrown held : option Exception) :=
    match thrown with Some ex => Some ex | None => held end in
  (msg_type message = IRQ_RAISE ->
   forall fnv t1 w1 x1,
     irq_data_ t !! index = Some fnv -> IsFunction E fnv = true ->
     script E (Function_Call fnv []) (on t) w = (t1, w1, x1) ->
     dispatch E message (t, w, trycatch) = Ok (off t1, w1, caught x1 trycatch) /\
     forall t2 w2 x2,
       irq_data_ t1 !! index = Some fnv ->
       script E (Function_Call fnv []) (on (off t1)) w1 = (t2, w2, x2) ->
       dispatch_all E [message; message] (t, w, trycatch) =
         Ok (off t2, w2, caught x2 (caught x1 trycatch))) /\
  (msg_type message = FUNCTION_RETURN_RESOLVE \/
   msg_type message = FUNCTION_RETURN_REJECT ->
   forall unpacked resolver t1 w1 x1 t2 w2 x2,
     Unpack E (msg_data message) = Some unpacked ->
     promises_ t !! index = Some resolver ->
     script E (settle (msg_type message) resolver unpacked)
       (on (set_promises_ (delete index (promises_ t)) t)) w = (t1, w1, x1) ->
     script E RunMicrotasks t1 w1 = (t2, w2, x2) ->
     dispatch E message (t, w, trycatch) =
       Ok (off t2, w2, caught x2 (caught x1 trycatch)) /\
     (promises_ t2 !! index = None ->
      dispatch_all E [message; message] (t, w, trycatch) =
        Fatal (NullDereference "resolver"))) /\
  (msg_type message = TIMEOUT_EVENT ->
   forall fnv t1 w1 x1,
     timeout_data_ t !! index = Some fnv -> IsFunction E fnv = true ->
     script E (Function_Call fnv [])
       (on (set_timeout_data_ (delete index (timeout_data_ t)) t)) w = (t1, w1, x1) ->
     dispatch E message (t, w, trycatch) = Ok (off t1, w1, caught x1 trycatch) /\
     (timeout_data_ t1 !! index = None ->
      dispatch_all E [message; message] (t, w, trycatch) =
        Fatal (NullDereference "fnv"))).
Proof.
  intros index on off caught. split; [|split].
  - intros Hty fnv t1 w1 x1 Hfn Hisfn Hs1.
    assert (Hone : forall t' w' tc' t'' w'' x'',
              irq_data_ t' !! index = Some fnv ->
              script E (Function_Call fnv []) (on t') w' = (t'', w'', x'') ->
              dispatch E message (t', w', tc') = Ok (off t'', w'', caught x'' tc')).
    { intros t' w' tc' t'' w'' x'' H' Hs. unfold dispatch, GetIRQData. rewrite Hty.
      fold index. rewrite H'. simpl. rewrite Hisfn. simpl.
      unfold guarded, enter_script, V8InterruptScope_enter, V8InterruptScope_leave.
      simpl. fold on. rewrite Hs. reflexivity. }
    split; [apply Hone; assumption|].
    intros t2 w2 x2 Hkept Hs2. cbn [dispatch_all].
    rewrite (Hone _ _ _ _ _ _ Hfn Hs1). cbn [mbind Result_bind].
    rewrite (Hone (off t1) w1 _ t2 w2 x2 Hkept Hs2). reflexivity.
  - intros Hty unpacked resolver t1 w1 x1 t2 w2 x2 Hunpack Hpromise Hs1 Hs2.
    assert (Hone : dispatch E message (t, w, trycatch) =
                   Ok (off t2, w2, caught x2 (caught x1 trycatch))).
    { unfold dispatch, TakePromise.
      destruct Hty as [Hty|Hty]; rewrite Hty in *; rewrite Hunpack; fold index;
        rewrite Hpromise; simpl;
        unfold guarded, enter_script, V8InterruptScope_enter, V8InterruptScope_leave;
        simpl; fold on; simpl in Hs1; rewrite Hs1, Hs2; reflexivity. }
    split; [exact Hone|].
    intros Hgone. cbn [dispatch_all]. rewrite Hone. cbn [mbind Result_bind].
    unfold dispatch, TakePromise.
    destruct Hty as [Hty|Hty]; rewrite Hty, Hunpack; fold index; simpl;
      rewrite Hgone; reflexivity.
  - intros Hty fnv t1 w1 x1 Hfn Hisfn Hs1.
    assert (Hone : dispatch E message (t, w, trycatch) =
                   Ok (off t1, w1, caught x1 trycatch)).
    { unfold dispatch, TakeTimeoutData. rewrite Hty. fold index.
      rewrite Hfn. simpl. rewrite Hisfn. simpl.
      unfold guarded, enter_script, V8InterruptScope_enter, V8InterruptScope_leave.
      simpl. fold on. rewrite Hs1. reflexivity. }
    split; [exact Hone|].
    intros Hgone. cbn [dispatch_all]. rewrite Hone. cbn [mbind Result_bind].
    unfold dispatch, TakeTimeoutData. rewrite Hty. fold index. simpl.
    rewrite Hgone. reflexivity.
Qed.

Lemma pending_tables_on_dispatch_witness :
  dispatch_all sample_engine_counting
      [sample_message IRQ_RAISE 5; sample_message IRQ_RAISE 5]
      (sample_pending, sample_world [], None) =
    Ok (set_ref_count_ 2 sample_pending, sample_world [], None) /\
  (dispatch sample_engine_counting (sample_message FUNCTION_RETURN_RESOLVE 3)
      (sample_pending, sample_world [], None) =
     Ok (set_ref_count_ 110
           (set_promises_ (delete 3 (promises_ sample_pending)) sample_pending),
         sample_world [], None) /\
   dispatch_all sample_engine_counting
      [sample_message FUNCTION_RETURN_RESOLVE 3;
       sample_message FUNCTION_RETURN_RESOLVE 3]
      (sample_pending, sample_world [], None) =
     Fatal (NullDereference "resolver")) /\
  (dispatch sample_engine_counting (sample_message TIMEOUT_EVENT 9)
      (sample_pending, sample_world [], None) =
     Ok (set_ref_count_ 1
           (set_timeout_data_ (delete 9 (timeout_data_ sample_pending)) sample_pending),
         sample_world [], None) /\
   dispatch_all sample_engine_counting
      [sample_message TIMEOUT_EVENT 9; sample_message TIMEOUT_EVENT 9]
      (sample_pending, sample_world [], None) =
     Fatal (NullDereference "fnv")).
Proof.
  pose proof (pending_tables_on_dispatch sample_engine_counting) as H.
  split; [|split].
  - destruct (proj1 (H (sample_message IRQ_RAISE 5) sample_pending (sample_world []) None)
                eq_refl (ValueRef 101)
                (set_ref_count_ 1 (set_v8_interrupt_enabled_ true sample_pending))
                (sample_world []) None) as [_ Htwice].
    + vm_compute; reflexivity.
    + reflexivity.
    + vm_compute; reflexivity.
    + apply (Htwice (set_ref_count_ 2 (set_v8_interrupt_enabled_ true sample_pending))
               (sample_world []) None).
      * vm_compute; reflexivity.
      * vm_compute; reflexivity.
  - destruct (proj1 (proj2 (H (sample_message FUNCTION_RETURN_RESOLVE 3) sample_pending
                              (sample_world []) None))
                (or_introl eq_refl) (ValueRef 8) (ValueRef 7)
                (set_ref_count_ 10
                   (set_v8_interrupt_enabled_ true
                      (set_promises_ (delete 3 (promises_ sample_pending)) sample_pending)))
                (sample_world []) None
                (set_ref_count_ 110
                   (set_v8_interrupt_enabled_ true
                      (set_promises_ (delete 3 (promises_ sample_pending)) sample_pending)))
                (sample_world []) None) as [Hone Htwice].
    + reflexivity.
    + vm_compute; reflexivity.
    + vm_compute; reflexivity.
    + vm_compute; reflexivity.
    + split; [exact Hone|]. apply Htwice. vm_compute; reflexivity.
  - destruct (proj2 (proj2 (H (sample_message TIMEOUT_EVENT 9) sample_pending
                              (sample_world []) None))
                eq_refl (ValueRef 100)
                (set_ref_count_ 1
                   (set_v8_interrupt_enabled_ true
                      (set_timeout_data_ (delete 9 (timeout_data_ sample_pending))
                         sample_pending)))
                (sample_world []) None) as [Hone Htwice].
    + vm_compute; reflexivity.
    + reflexivity.
    + vm_compute; reflexivity.
    + split; [exact Hone|]. apply Htwice. vm_compute; reflexivity.
Defined.

(** * Further properties of the code *)

(** ** The tick counter *)

(** One tick of an eligible thread below the threshold counts; the tick
    at 7 requests an interrupt and starts over. *)
Lemma TimerTick_step t iv8 :
  v8_interrupt_enabled_ t = true -> iv8_ t = Some iv8 ->
  0 <= irq_ticks_counter_ t <= 7 ->
  exists t',
    TimerTick t = Ok t' /\
    v8_interrupt_enabled_ t' = true /\ this_ t' = this_ t /\
    if bool_decide (irq_ticks_counter_ t = 7)
    then irq_ticks_counter_ t' = 0 /\
         iv8_ t' = Some (Isolate_RequestInterrupt (this_ t) iv8)
    else irq_ticks_counter_ t' = irq_ticks_counter_ t + 1 /\
         iv8_ t' = Some iv8.
Proof.
  intros Hen Hiv8 Hc. unfold TimerTick. rewrite Hen. simpl.
  assert (Hw : wrap32 (irq_ticks_counter_ t + 1) = irq_ticks_counter_ t + 1).
  { unfold wrap32. apply Z.mod_small. lia. }
  rewrite Hw. case_bool_decide as H7.
  - rewrite bool_decide_eq_true_2 by lia. simpl. rewrite Hiv8. simpl.
    eexists. split; [reflexivity|]. simpl. auto.
  - rewrite bool_decide_eq_false_2 by lia.
    eexists. split; [reflexivity|]. simpl. auto.
Qed.

(** X1.  On a thread that is eligible for preemption and has an isolate,
    with the counter between 0 and 7, any number [n] of consecutive
    [TimerTick]s succeeds, leaves the counter at [(c + n) mod 8] and has
    requested exactly [(c + n) / 8] interrupts: one for every eighth
    tick. *)
Theorem timer_ticks_periodic (n : nat) : forall t iv8,
  v8_interrupt_enabled_ t = true -> iv8_ t = Some iv8 ->
  0 <= irq_ticks_counter_ t <= 7 ->
  exists t',
    TimerTicks n t = Ok t' /\
    irq_ticks_counter_ t' = (irq_ticks_counter_ t + Z.of_nat n) mod 8 /\
    interrupt_requests t' =
      interrupt_requests t ++
      repeat (this_ t) (Z.to_nat ((irq_ticks_counter_ t + Z.of_nat n) / 8)).
Proof.
  induction n as [|n IH]; intros t iv8 Hen Hiv8 Hc.
  - exists t. split; [reflexivity|].
    rewrite Z.add_0_r, Z.mod_small, Z.div_small by lia.
    simpl. by rewrite app_nil_r.
  - destruct (TimerTick_step t iv8 Hen Hiv8 Hc) as (t1 & Ht1 & Hen1 & Hthis & Hcase).
    cbn [TimerTicks]. rewrite Ht1. cbn [mbind Result_bind].
    unfold interrupt_requests at 2. rewrite Hiv8.
    case_bool_decide as H7; destruct Hcase as [Hc1 Hiv1].
    + destruct (IH t1 _ Hen1 Hiv1 ltac:(lia)) as (t' & Hrun & Hcnt & Hreq).
      exists t'. split; [exact Hrun|].
      rewrite Hcnt, Hreq, Hc1, H7, Hthis.
      unfold interrupt_requests at 1. rewrite Hiv1. simpl.
      replace (7 + Z.of_nat (S n)) with (Z.of_nat n + 1 * 8) by lia.
      rewrite Z.mod_add, Z.div_add by lia. split; [reflexivity|].
      rewrite Z2Nat.inj_add by (try apply Z.div_pos; lia).
      rewrite repeat_app, <- app_assoc. simpl.
      f_equal. change (this_ t :: repeat (this_ t) (Z.to_nat (Z.of_nat n / 8)))
        with (repeat (this_ t) (S (Z.to_nat (Z.of_nat n / 8)))).
      rewrite repeat_cons. reflexivity.
    + destruct (IH t1 _ Hen1 Hiv1 ltac:(lia)) as (t' & Hrun & Hcnt & Hreq).
      exists t'. split; [exact Hrun|].
      rewrite Hcnt, Hreq, Hc1, Hthis.
      unfold interrupt_requests at 1. rewrite Hiv1.
      replace (irq_ticks_counter_ t + 1 + Z.of_nat n)
        with (irq_ticks_counter_ t + Z.of_nat (S n)) by lia.
      auto.
Qed.

Lemma timer_ticks_periodic_witness :
  exists t',
    TimerTicks 20 sample_running = Ok t' /\
    irq_ticks_counter_ t' = 4 /\
    interrupt_requests t' = [2%nat; 2%nat].
Proof.
  apply (timer_ticks_periodic 20 sample_running (Isolate_SetData0 2%nat Isolate_New)).
  - reflexivity.
  - reflexivity.
  - simpl. lia.
Defined.

(** ** More on the export table *)

(** X2.  [Add] never disturbs a lookup: whatever [Get] returned for an
    index inside the table, for any generation id, it returns after any
    number of later [Add]s. *)
Theorem exports_lookups_are_stable e e' iv8 index export_id :
  Exports_later e e' ->
  0 <= index < Z.of_nat (length (data_ e)) ->
  FunctionExports_Get iv8 index export_id e' =
  FunctionExports_Get iv8 index export_id e.
Proof.
  intros Hlater [Hpos Hlt].
  apply Exports_later_prefix in Hlater as [Hth [more Hd]].
  unfold FunctionExports_Get. rewrite Hth, Hd.
  destruct (thread_ e); [|reflexivity]. simpl.
  rewrite !bool_decide_eq_true_2 by (rewrite ?length_app; lia). simpl.
  destruct iv8; [|reflexivity]. simpl.
  rewrite lookup_app_l by lia. reflexivity.
Qed.

Lemma exports_lookups_are_stable_witness :
  FunctionExports_Get (Some Isolate_New) 0 7 sample_exports2 =
  FunctionExports_Get (Some Isolate_New) 0 7 sample_exports1.
Proof.
  apply (exports_lookups_are_stable sample_exports1 sample_exports2).
  - apply (Exports_later_Add _ sample_exports1 _ (Some Isolate_New)
             (Some (ValueRef 101)) None
             {| ef_index := 1; ef_export_id := 2; ef_thread := 2%nat; ef_recv := None |}).
    + apply Exports_later_refl.
    + reflexivity.
  - simpl. lia.
Defined.

Lemma Add_counter iv8 v recv e h e1 :
  FunctionExports_Add iv8 v recv e = Ok (h, e1) ->
  export_id_ e1 = ef_export_id h.
Proof.
  unfold FunctionExports_Add. intros H.
  destruct (thread_ e); [|discriminate]. destruct iv8; [|discriminate].
  simpl in H. injection H as <- <-. reflexivity.
Qed.

(** X3.  In a table grown from the empty one by fewer than 2^64 [Add]s,
    the counter is the number of entries and the entry at index [i] has
    generation id [i + 1]; for an index that a handle can hold (below
    2^32), [Get] resolves index [i] by the id [i + 1] and by no other. *)
Theorem exports_from_new th e :
  Exports_later (FunctionExports_new th) e ->
  Z.of_nat (length (data_ e)) < 2 ^ 64 ->
  export_id_ e = Z.of_nat (length (data_ e)) /\
  forall (i : nat) d,
    data_ e !! i = Some d ->
    fed_export_id d = Z.of_nat i + 1 /\
    forall iso export_id,
      Z.of_nat i < 2 ^ 32 ->
      FunctionExports_Get (Some iso) (wrap32 (Z.of_nat i)) export_id e =
        Ok (if bool_decide (export_id = Z.of_nat i + 1) then fed_value d else None).
Proof.
  intros Hlater Hsize.
  assert (H : thread_ e = Some th /\
              export_id_ e = Z.of_nat (length (data_ e)) /\
              forall (i : nat) d, data_ e !! i = Some d ->
                                  fed_export_id d = Z.of_nat i + 1).
  { revert Hsize. remember (FunctionExports_new th) as e0 eqn:He0.
    induction Hlater as [e | e e1 e2 iv8 v recv h Hlater IH HAdd]; intros Hsize.
    - subst e. simpl. repeat split. intros i d Hd. by rewrite lookup_nil in Hd.
    - specialize (IH He0).
      pose proof (Add_counter _ _ _ _ _ _ HAdd) as Hcounter.
      apply Add_inv in HAdd as (_ & Hid & Hd & Hth & _).
      rewrite Hd, length_app in Hsize. simpl in Hsize.
      destruct (IH ltac:(lia)) as (IHth & IHid & IHd).
      assert (Hnew : ef_export_id h = Z.of_nat (length (data_ e1)) + 1).
      { rewrite Hid, IHid. unfold wrap64. apply Z.mod_small. lia. }
      split; [congruence|]. split.
      + rewrite Hcounter, Hd, length_app. simpl. lia.
      + intros i d Hi. rewrite Hd in Hi.
        apply lookup_app_Some in Hi as [Hi | [Hge Hi]]; [eauto|].
        destruct (i - length (data_ e1))%nat as [|k] eqn:Hk; [|by destruct k].
        simpl in Hi. injection Hi as <-. simpl. rewrite Hnew. lia. }
  destruct H as (Hth & Hcounter & Hids). split; [exact Hcounter|].
  intros i d Hd. specialize (Hids i d Hd). split; [exact Hids|].
  intros iso export_id Hi.
  assert (Hwrap : wrap32 (Z.of_nat i) = Z.of_nat i).
  { unfold wrap32. apply Z.mod_small. lia. }
  rewrite Hwrap.
  rewrite (Get_entry iso (Z.of_nat i) export_id e d); eauto;
    [|lia|by rewrite Nat2Z.id].
  rewrite Hids. repeat case_bool_decide; congruence.
Qed.

Lemma exports_from_new_witness :
  export_id_ sample_exports2 = 2 /\
  forall (i : nat) d,
    data_ sample_exports2 !! i = Some d ->
    fed_export_id d = Z.of_nat i + 1 /\
    forall iso export_id,
      Z.of_nat i < 2 ^ 32 ->
      FunctionExports_Get (Some iso) (wrap32 (Z.of_nat i)) export_id sample_exports2 =
        Ok (if bool_decide (export_id = Z.of_nat i + 1) then fed_value d else None).
Proof.
  apply (exports_from_new 2%nat sample_exports2).
  - apply (Exports_later_Add _ sample_exports1 _ (Some Isolate_New)
             (Some (ValueRef 101)) None
             {| ef_index := 1; ef_export_id := 2; ef_thread := 2%nat; ef_recv := None |}).
    + apply (Exports_later_Add _ (FunctionExports_new 2%nat) _ (Some Isolate_New)
               (Some (ValueRef 100)) (Some 0%nat) sample_handle).
      * apply Exports_later_refl.
      * reflexivity.
    + reflexivity.
  - reflexivity.
Defined.

(** ** Dispatch of single messages *)

(** X4.  Dispatch of a FUNCTION_CALL message whose payload unpacks, on a
    thread with an isolate and a call wrapper.  The exported function the
    message names is looked up by index and generation id: when the
    generation id matches and the entry holds a function, the wrapper is
    called with that function, the sender, the payload and the index of
    the message; when the generation id does not match, the wrapper is
    called with null in place of the function; an entry that holds a
    value that is no function, and an index outside the table, are
    fatal. *)
Theorem function_call_looks_up_the_export E message t w trycatch
    unpacked efn iso fnwrap :
  msg_type message = FUNCTION_CALL ->
  Unpack E (msg_data message) = Some unpacked ->
  msg_exported_func message = Some efn ->
  iv8_ t = Some iso ->
  is_Some (thread_ (exports_ t)) ->
  call_wrapper_ t = Some fnwrap ->
  0 <= ef_index efn ->
  let call fnval :=
    guarded E [Function_Call fnwrap
                 [fnval; NewExternal E (msg_sender message); unpacked;
                  Uint32_NewFromUnsigned E (msg_recv_index message)]]
            (t, w, trycatch) in
  (forall d, data_ (exports_ t) !! Z.to_nat (ef_index efn) = Some d ->
     (fed_export_id d <> ef_export_id efn ->
      dispatch E message (t, w, trycatch) = Ok (call (Null E))) /\
     (fed_export_id d = ef_export_id efn ->
      forall f, fed_value d = Some f ->
        dispatch E message (t, w, trycatch) =
          if IsFunction E f then Ok (call f)
          else Fatal (Assert "fnval->IsFunction()"))) /\
  (Z.of_nat (length (data_ (exports_ t))) <= ef_index efn ->
   dispatch E message (t, w, trycatch) = Fatal (Assert "index < data_.size()")).
Proof.
  intros Hty Hunpack Hefn Hiso Hth Hwrap Hpos call. split.
  - intros d Hd.
    pose proof (Get_entry iso _ (ef_export_id efn) _ d Hth Hpos Hd) as HGet.
    unfold dispatch. rewrite Hty, Hunpack, Hefn, Hiso. simpl. rewrite HGet.
    split.
    + intros Hne. rewrite bool_decide_eq_true_2 by exact Hne. simpl.
      rewrite Hwrap. reflexivity.
    + intros Heq f Hf. rewrite bool_decide_eq_false_2 by tauto. simpl.
      rewrite Hf. destruct (IsFunction E f); simpl; [|reflexivity].
      rewrite Hwrap. reflexivity.
  - intros Hout. destruct Hth as [th Hth].
    unfold dispatch. rewrite Hty, Hunpack, Hefn, Hiso. simpl.
    unfold FunctionExports_Get. rewrite Hth. simpl.
    rewrite bool_decide_eq_false_2 by lia. reflexivity.
Qed.

Lemma function_call_looks_up_the_export_witness :
  dispatch sample_engine (sample_call 0 1) (sample_exporting, sample_world [], None) =
    Ok (guarded sample_engine
          [Function_Call (ValueRef 150)
             [ValueRef 100; ValueRef 2; ValueRef 8; ValueRef 3]]
          (sample_exporting, sample_world [], None)) /\
  dispatch sample_engine (sample_call 0 9) (sample_exporting, sample_world [], None) =
    Ok (guarded sample_engine
          [Function_Call (ValueRef 150)
             [ValueRef 1; ValueRef 2; ValueRef 8; ValueRef 3]]
          (sample_exporting, sample_world [], None)) /\
  dispatch sample_engine (sample_call 5 1) (sample_exporting, sample_world [], None) =
    Fatal (Assert "index < data_.size()").
Proof.
  split; [|split].
  - refine (proj2 (proj1 (function_call_looks_up_the_export sample_engine
              (sample_call 0 1) sample_exporting (sample_world []) None
              (ValueRef 8) _ (Isolate_SetData0 2%nat Isolate_New) (ValueRef 150)
              eq_refl eq_refl eq_refl eq_refl _ eq_refl _) _ eq_refl)
              eq_refl (ValueRef 100) eq_refl).
    + eexists; reflexivity.
    + simpl. lia.
  - refine (proj1 (proj1 (function_call_looks_up_the_export sample_engine
              (sample_call 0 9) sample_exporting (sample_world []) None
              (ValueRef 8) _ (Isolate_SetData0 2%nat Isolate_New) (ValueRef 150)
              eq_refl eq_refl eq_refl eq_refl _ eq_refl _) _ eq_refl) _).
    + eexists; reflexivity.
    + simpl. lia.
    + simpl. discriminate.
  - refine (proj2 (function_call_looks_up_the_export sample_engine
              (sample_call 5 1) sample_exporting (sample_world []) None
              (ValueRef 8) _ (Isolate_SetData0 2%nat Isolate_New) (ValueRef 150)
              eq_refl eq_refl eq_refl eq_refl _ eq_refl _) _).
    + eexists; reflexivity.
    + simpl. lia.
    + simpl. lia.
Defined.

(** X5.  The arguments of a thread are set once.  A SET_ARGUMENTS or
    SET_ARGUMENTS_NOPARENT message on a thread that has its arguments is
    fatal; one that is dispatched found none, leaves the unpacked payload
    as the arguments, and makes a second such message that follows it in
    the batch fatal. *)
Theorem arguments_are_set_once E m1 m2 rest t w trycatch :
  sets_arguments (msg_type m1) = true ->
  sets_arguments (msg_type m2) = true ->
  (args_ t <> None ->
   dispatch E m1 (t, w, trycatch) = Fatal (Assert "args_.IsEmpty()")) /\
  (forall st, dispatch E m1 (t, w, trycatch) = Ok st ->
     args_ t = None /\
     is_Some (args_ st.1.1) /\
     args_ st.1.1 = Unpack E (msg_data m1) /\
     dispatch_all E (m1 :: m2 :: rest) (t, w, trycatch) =
       Fatal (Assert "args_.IsEmpty()")).
Proof.
  intros H1 H2.
  assert (Hset : forall m t' w' tc', sets_arguments (msg_type m) = true ->
            args_ t' <> None ->
            dispatch E m (t', w', tc') = Fatal (Assert "args_.IsEmpty()")).
  { intros m t' w' tc' Hm Hargs. unfold dispatch.
    destruct (msg_type m); try discriminate;
      rewrite bool_decide_eq_false_2 by exact Hargs; reflexivity. }
  split; [apply Hset, H1|].
  intros st Hst.
  assert (Hnone : args_ t = None).
  { destruct (args_ t) eqn:Ha; [|reflexivity].
    rewrite Hset in Hst; [discriminate | exact H1 | congruence]. }
  assert (Hargs : is_Some (args_ st.1.1) /\ args_ st.1.1 = Unpack E (msg_data m1)).
  { unfold dispatch in Hst. rewrite Hnone in Hst.
    destruct (msg_type m1); try discriminate; simpl in Hst;
      destruct (Unpack E (msg_data m1)) as [v|]; try discriminate;
      simpl in Hst; injection Hst as <-; simpl; eauto. }
  destruct Hargs as [Hsome Hargs]. repeat split; try assumption.
  cbn [dispatch_all]. rewrite Hst. cbn [mbind Result_bind].
  destruct st as [[t1 w1] tc1]. rewrite Hset; [reflexivity | exact H2 |].
  simpl in Hsome. destruct Hsome as [v Hv]. congruence.
Qed.

Lemma arguments_are_set_once_witness :
  dispatch_all sample_engine
    [sample_message SET_ARGUMENTS 42; sample_message SET_ARGUMENTS_NOPARENT 0]
    (sample_thread, sample_world [], None) = Fatal (Assert "args_.IsEmpty()").
Proof.
  refine (proj2 (proj2 (proj2 (proj2 (arguments_are_set_once sample_engine
            (sample_message SET_ARGUMENTS 42)
            (sample_message SET_ARGUMENTS_NOPARENT 0) []
            sample_thread (sample_world []) None eq_refl eq_refl) _ _)))).
  vm_compute. reflexivity.
Defined.

(** X6.  A payload that cannot be unpacked is fatal for every message
    whose case unpacks it (for the two that set the arguments: once the
    assertion on the arguments has passed), and no later message of the
    batch is dispatched. *)
Theorem undecodable_payload_is_fatal E message rest t w trycatch :
  carries_payload (msg_type message) = true ->
  (sets_arguments (msg_type message) = true -> args_ t = None) ->
  Unpack E (msg_data message) = None ->
  dispatch_all E (message :: rest) (t, w, trycatch) =
    Fatal (Assert "!unpacked.IsEmpty()").
Proof.
  intros Hcarries Hargs Hunpack. cbn [dispatch_all]. unfold dispatch.
  destruct (msg_type message); try discriminate;
    rewrite ?(Hargs eq_refl), Hunpack; reflexivity.
Qed.

Lemma undecodable_payload_is_fatal_witness :
  dispatch_all sample_engine_strict
    [ThreadMessage_new EVALUATE (Some 0%nat) [] None 0; sample_evaluate 7]
    (sample_thread, sample_world [], None) =
  Fatal (Assert "!unpacked.IsEmpty()").
Proof.
  apply (undecodable_payload_is_fatal sample_engine_strict
           (ThreadMessage_new EVALUATE (Some 0%nat) [] None 0)
           [sample_evaluate 7] sample_thread (sample_world []) None).
  - reflexivity.
  - discriminate.
  - reflexivity.
Defined.

(** ** [Run] without work *)

Lemma promote_timeouts_none fuel ticks_now t w :
  Timeouts_Elapsed ticks_now (timeouts_ t) = false ->
  promote_timeouts fuel ticks_now t w = Ok (t, w).
Proof. intros H. destruct fuel; simpl; rewrite H; reflexivity. Qed.

Lemma set_engine_threads_id n lptr w :
  engine_threads w !! n = Some lptr ->
  set_engine_threads (<[n := lptr]> (engine_threads w)) w = w.
Proof.
  intros H. rewrite insert_id by exact H. destruct w. reflexivity.
Qed.

(** X7.  A [Run] that finds nothing to do changes nothing.  On a thread
    that was set up, with an empty queue and no timeout due, [Run]
    returns true and leaves the thread and the world exactly as they
    were: no context is created, nothing is printed, and the liveness
    count and termination flag are not looked at. *)
Theorem Run_without_work_changes_nothing E t w n lptr :
  type_ t = DEFAULT -> is_Some (iv8_ t) -> is_Some (tpl_cache_ t) ->
  thread_mgr_ t = true ->
  ethread_ t = Some n -> engine_threads w !! n = Some lptr ->
  et_messages lptr = [] ->
  Timeouts_Elapsed (ticks_count w) (timeouts_ t) = false ->
  Run E t w = Ok (true, t, w).
Proof.
  intros Htype [iv8 Hiv8] [tpl Htpl] Hmgr Hn Hw Hq Hdue.
  unfold Run. rewrite Htype, Hiv8, Htpl. simpl.
  unfold take_batch, thread_mgr. rewrite Hmgr. simpl.
  rewrite (promote_timeouts_none _ _ _ _ Hdue). simpl.
  unfold TakeMessages. rewrite Hn. simpl. rewrite Hw. simpl.
  rewrite Hq. simpl.
  assert (Hlptr : {| et_type := et_type lptr; et_thread := et_thread lptr;
                     et_messages := [] |} = lptr).
  { destruct lptr. simpl in Hq. subst. reflexivity. }
  rewrite Hlptr, (set_engine_threads_id _ _ _ Hw). reflexivity.
Qed.

Lemma Run_without_work_changes_nothing_witness :
  Run sample_engine sample_due
      {| engine_threads := engine_threads (sample_world []);
         ticks_count := 49; ms_per_tick := 1; current_thread := Some 2%nat;
         preempt_calls := 0; console := [] |} =
  Ok (true, sample_due,
      {| engine_threads := engine_threads (sample_world []);
         ticks_count := 49; ms_per_tick := 1; current_thread := Some 2%nat;
         preempt_calls := 0; console := [] |}).
Proof.
  apply (Run_without_work_changes_nothing sample_engine sample_due _ 1%nat
           {| et_type := DEFAULT; et_thread := Some 2%nat; et_messages := [] |}).
  - reflexivity.
  - eexists; reflexivity.
  - eexists; reflexivity.
  - reflexivity.
  - reflexivity.
  - reflexivity.
  - reflexivity.
  - vm_compute. reflexivity.
Defined.

(** ** The order of the life cycle *)

Lemma TearDown_Ok_isolate E t w t1 w1 :
  TearDown E t w = Ok (t1, w1) ->
  exists iv8, iv8_ t = Some iv8 /\ iv8_ t1 = Some (Isolate_Dispose iv8).
Proof.
  unfold TearDown. intros H. inv_ok H. subst t1.
  apply assert_ptr_Ok in Ha0. eauto.
Qed.

(** X8.  [SetUp] comes first and [TearDown] last.  On a DEFAULT thread
    that has no isolate yet, [Run] and [TearDown] both stop at the
    assertion on the isolate.  After a [TearDown] that completed, [Run]
    stops at the assertion on the thread type and [SetUp] at the
    assertion on the isolate, whose pointer [TearDown] disposes of but
    does not reset. *)
Theorem lifecycle_order E t w :
  (type_ t = DEFAULT -> iv8_ t = None ->
   Run E t w = Fatal (Assert "iv8_") /\
   TearDown E t w = Fatal (Assert "iv8_")) /\
  (forall t1 w1 w', TearDown E t w = Ok (t1, w1) ->
   Run E t1 w' = Fatal (Assert "ThreadType::TERMINATED != type_") /\
   SetUp t1 w' = Fatal (Assert "nullptr == iv8_")).
Proof.
  split.
  - intros Htype Hiv8. unfold Run, TearDown. rewrite Htype, Hiv8. auto.
  - intros t1 w1 w' H.
    pose proof (TearDown_Ok_thread _ _ _ _ _ H) as (Htype & _).
    apply TearDown_Ok_isolate in H as (iv8 & _ & Hiv8).
    split.
    + unfold Run. rewrite Htype. reflexivity.
    + unfold SetUp. rewrite Htype, Hiv8. reflexivity.
Qed.

Lemma lifecycle_order_witness :
  (Run sample_engine sample_new (sample_world []) = Fatal (Assert "iv8_") /\
   TearDown sample_engine sample_new (sample_world []) = Fatal (Assert "iv8_")) /\
  (exists t1 w1,
     TearDown sample_engine sample_child (sample_world []) = Ok (t1, w1) /\
     Run sample_engine t1 w1 = Fatal (Assert "ThreadType::TERMINATED != type_") /\
     SetUp t1 w1 = Fatal (Assert "nullptr == iv8_")).
Proof.
  split.
  - apply (proj1 (lifecycle_order sample_engine sample_new (sample_world [])));
      reflexivity.
  - eexists _, _. split; [vm_compute; reflexivity|].
    eapply (proj2 (lifecycle_order sample_engine sample_child (sample_world []))).
    vm_compute; reflexivity.
Defined.

(** ** IDLE threads *)

Lemma operate_idle E op t w t' w' :
  type_ t = IDLE -> iv8_ t = None ->
  operate E op (t, w) = Ok (t', w') ->
  type_ t' = IDLE /\ iv8_ t' = None /\
  tpl_cache_ t' = tpl_cache_ t /\ context_ t' = context_ t /\
  w' = w /\ op <> Op_TearDown.
Proof.
  intros Htype Hiv8 H. destruct op; simpl in H.
  - inv_ok H. subst. unfold SetTimeout in Ha. inv_ok Ha.
    case_bool_decide; [discriminate|]. inv_ok Ha. subst. simpl. auto 10.
  - unfold SetUp in H. rewrite bool_decide_eq_true_2 in H by exact Htype.
    inv_ok H. subst. auto 10.
  - unfold Run in H. rewrite Htype in H. simpl in H. inv_ok H. subst. auto 10.
  - inv_ok H. subst. unfold TimerTick in Ha.
    destruct (negb (v8_interrupt_enabled_ t)); [inv_ok Ha; subst; auto 10|].
    case_bool_decide.
    + simpl in Ha. rewrite Hiv8 in Ha. discriminate.
    + inv_ok Ha. subst. simpl. auto 10.
  - unfold TearDown in H. rewrite Htype in H. discriminate.
Qed.

(** X9.  An IDLE thread never acquires an isolate, a template cache or
    a context and never touches the world: through any sequence of
    [SetTimeout], [SetUp], [Run] and [TimerTick] that completes it stays
    IDLE and without isolate, and the world is as it was; a sequence with
    a [TearDown] in it does not complete; and [Run] returns true without
    doing anything. *)
Theorem idle_thread_never_runs E ops : forall t w t' w',
  type_ t = IDLE -> iv8_ t = None ->
  operate_all E ops (t, w) = Ok (t', w') ->
  type_ t' = IDLE /\ iv8_ t' = None /\
  tpl_cache_ t' = tpl_cache_ t /\ context_ t' = context_ t /\
  w' = w /\ (Op_TearDown ∉ ops) /\
  Run E t' w' = Ok (true, t', w').
Proof.
  induction ops as [|op ops IH]; intros t w t' w' Htype Hiv8 H; simpl in H.
  - inv_ok H. subst. repeat split; try assumption.
    + apply not_elem_of_nil.
    + unfold Run. rewrite Htype. reflexivity.
  - inv_ok H. destruct a as [t1 w1].
    apply operate_idle in Ha as (Htype1 & Hiv1 & Htpl1 & Hctx1 & -> & Hop);
      try assumption.
    destruct (IH _ _ _ _ Htype1 Hiv1 H) as (? & ? & ? & ? & ? & Hnotin & ?).
    repeat split; try congruence.
    apply not_elem_of_cons. split; [congruence | exact Hnotin].
Qed.

Lemma idle_thread_never_runs_witness :
  exists t',
    operate_all sample_engine
      [Op_SetUp; Op_Run; Op_TimerTick; Op_SetTimeout 1 10; Op_Run]
      (sample_idle, sample_world [sample_evaluate 50]) =
      Ok (t', sample_world [sample_evaluate 50]) /\
    type_ t' = IDLE /\ iv8_ t' = None /\
    Run sample_engine t' (sample_world [sample_evaluate 50]) =
      Ok (true, t', sample_world [sample_evaluate 50]).
Proof.
  eexists. split; [vm_compute; reflexivity|].
  match goal with
  | |- type_ ?t' = _ /\ _ =>
      pose proof (idle_thread_never_runs sample_engine
        [Op_SetUp; Op_Run; Op_TimerTick; Op_SetTimeout 1 10; Op_Run]
        sample_idle (sample_world [sample_evaluate 50]) t'
        (sample_world [sample_evaluate 50]) eq_refl eq_refl) as H
  end.
  destruct H as (Ht & Hi & _ & _ & _ & _ & HRun); [vm_compute; reflexivity|].
  repeat split; assumption.
Defined.

(** ** What [Run] returning true means *)

(** X10.  A [Run] on a non-IDLE thread that took a non-empty batch and
    returned true found, after the batch, a liveness count other than
    zero and the termination flag clear, and has changed neither; the
    exception that the batch left in the [TryCatch], if any, has been
    printed. *)
Theorem Run_true_means_alive E t w t' w' messages t1 w1 :
  type_ t <> IDLE ->
  take_batch t w = Ok (messages, t1, w1) ->
  messages <> [] ->
  Run E t w = Ok (true, t', w') ->
  ref_count_ t' <> 0 /\ terminate_ t' = false /\
  exists w2 trycatch,
    dispatch_all E messages (ensure_context E t1 w1, None) = Ok (t', w2, trycatch) /\
    w' = match trycatch with
         | Some ex => log_exception ex w2
         | None => w2
         end.
Proof.
  intros Hidle Hbatch Hne HRun.
  apply Run_Ok in HRun as [[Hi _] | (ms & t1' & w1' & _ & _ & _ & Hb & H)]; [done|].
  rewrite Hbatch in Hb. injection Hb as <- <- <-.
  destruct H as [[Hnil _] | (_ & [[t2 w2] trycatch] & Hst & Hfin)]; [done|].
  unfold finish in Hfin.
  destruct (bool_decide (0 = ref_count_ t2)) eqn:Hrc;
    destruct (terminate_ t2) eqn:Hterm; simpl in Hfin; try discriminate.
  injection Hfin as Ht Hw. subst t' w'.
  apply bool_decide_eq_false in Hrc.
  repeat split; [congruence | exact Hterm |]. eauto.
Qed.

Lemma Run_true_means_alive_witness :
  Run sample_engine sample_live (sample_world [sample_evaluate 50]) =
    Ok (true, set_context_ (Some (ValueRef 4)) sample_live,
        printf (P_stack "Error: boom at init.js:3")
          (printf (P_uncaught_at "init.js" 3 "Error: boom")
             (printf P_new_context (sample_world [])))) /\
  ref_count_ (set_context_ (Some (ValueRef 4)) sample_live) <> 0 /\
  terminate_ (set_context_ (Some (ValueRef 4)) sample_live) = false.
Proof.
  assert (HRun : Run sample_engine sample_live (sample_world [sample_evaluate 50]) =
    Ok (true, set_context_ (Some (ValueRef 4)) sample_live,
        printf (P_stack "Error: boom at init.js:3")
          (printf (P_uncaught_at "init.js" 3 "Error: boom")
             (printf P_new_context (sample_world []))))).
  { vm_compute; reflexivity. }
  split; [exact HRun|].
  destruct (Run_true_means_alive sample_engine sample_live
              (sample_world [sample_evaluate 50]) _ _
              [sample_evaluate 50] sample_live (sample_world [])
              ltac:(discriminate) ltac:(vm_compute; reflexivity)
              ltac:(discriminate) HRun)
    as (Hr & Ht & _).
  split; assumption.
Defined.

(** ** Timeouts from [SetTimeout] to the batch *)

(** The batch of a thread whose queue can be reached: the messages of
    the timeouts that were due, then what was queued. *)
Lemma take_batch_promotes t w n lptr :
  thread_mgr_ t = true ->
  ethread_ t = Some n ->
  engine_threads w !! n = Some lptr ->
  exists promoted t1 w1,
    take_batch t w =
      Ok (map (fun x => timeout_message x.1) (reverse promoted) ++ et_messages lptr, t1, w1) /\
    timeouts_ t ≡ₚ promoted ++ timeouts_ t1 /\
    Forall (fun x => x.2 <= ticks_count w) promoted /\
    Forall (fun x => ticks_count w < x.2) (timeouts_ t1).
Proof.
  intros Hmgr Hn Hw.
  destruct (promote_timeouts_spec (ticks_count w) n (length (timeouts_ t)) t w lptr
              Hn Hw (Nat.le_refl _))
    as (promoted & t1 & w1 & lptr1 & Hrun & Hn1 & Hw1 & Hq & Hperm & Hall & Hexit).
  apply Timeouts_not_Elapsed in Hexit.
  exists promoted, t1. eexists.
  unfold take_batch, thread_mgr. rewrite Hmgr. simpl.
  rewrite Hrun. simpl. unfold TakeMessages. rewrite Hn1. simpl.
  rewrite Hw1. simpl. rewrite Hq. auto.
Qed.

(** X11.  A timeout fires when it is due and not before.  [SetTimeout]
    at tick [T] with a delay of [timeout_ms] milliseconds sets the
    deadline [T + timeout_ms / MsPerTick()] (the sum not exceeding 64
    bits).  The batch that a later [Run] takes holds the TIMEOUT_EVENT
    message of the timeout if the tick counter has reached the deadline;
    if it has not, the timeout is still pending afterwards. *)
Theorem timeout_fires_when_due timeout_id timeout_ms t w w' n lptr :
  thread_mgr_ t = true ->
  0 <= ticks_count w -> 0 <= timeout_ms -> 0 < ms_per_tick w ->
  ticks_count w + timeout_ms `div` ms_per_tick w < 2 ^ 64 ->
  ethread_ t = Some n -> engine_threads w' !! n = Some lptr ->
  let when := ticks_count w + timeout_ms `div` ms_per_tick w in
  exists t1,
    SetTimeout timeout_id timeout_ms t w = Ok t1 /\
    (timeout_id, when) ∈ timeouts_ t1 /\
    exists messages t2 w2,
      take_batch t1 w' = Ok (messages, t2, w2) /\
      (when <= ticks_count w' -> timeout_message timeout_id ∈ messages) /\
      (ticks_count w' < when -> (timeout_id, when) ∈ timeouts_ t2).
Proof.
  intros Hmgr Hnow Hms Hmpt Hfit Hn Hw' when.
  assert (Hdiv : 0 <= timeout_ms `div` ms_per_tick w) by (apply Z.div_pos; lia).
  assert (Hset : SetTimeout timeout_id timeout_ms t w =
                 Ok (set_timeouts_ (Timeouts_Set timeout_id when (timeouts_ t)) t)).
  { unfold SetTimeout, thread_mgr. rewrite Hmgr. simpl.
    rewrite bool_decide_eq_false_2 by lia.
    unfold wrap64. rewrite Z.mod_small by (fold when; lia). reflexivity. }
  eexists. split; [exact Hset|].
  assert (Hin : (timeout_id, when) ∈ Timeouts_Set timeout_id when (timeouts_ t)).
  { unfold Timeouts_Set. apply elem_of_app. right. apply list_elem_of_singleton.
    reflexivity. }
  split; [exact Hin|].
  destruct (take_batch_promotes
              (set_timeouts_ (Timeouts_Set timeout_id when (timeouts_ t)) t)
              w' n lptr Hmgr Hn Hw')
    as (promoted & t2 & w2 & Hbatch & Hperm & Hdue & Hpending).
  eexists _, t2, w2. split; [exact Hbatch|].
  simpl in Hperm. rewrite Hperm in Hin.
  apply elem_of_app in Hin as [Hin|Hin].
  - split.
    + intros _. apply elem_of_app. left.
      apply (list_elem_of_fmap_2 (fun x => timeout_message x.1)
               (reverse promoted) (timeout_id, when)).
      apply elem_of_reverse. exact Hin.
    + intros Hearly. rewrite Forall_forall in Hdue.
      specialize (Hdue _ Hin). simpl in Hdue. lia.
  - split.
    + intros Hlate. rewrite Forall_forall in Hpending.
      specialize (Hpending _ Hin). simpl in Hpending. lia.
    + intros _. exact Hin.
Qed.

Lemma timeout_fires_when_due_witness :
  exists t1,
    SetTimeout 9 30 sample_timer (sample_world []) = Ok t1 /\
    (9, 130) ∈ timeouts_ t1 /\
    exists messages t2 w2,
      take_batch t1
        {| engine_threads := engine_threads (sample_world []);
           ticks_count := 130; ms_per_tick := 1; current_thread := Some 2%nat;
           preempt_calls := 0; console := [] |} = Ok (messages, t2, w2) /\
      (130 <= 130 -> timeout_message 9 ∈ messages) /\
      (130 < 130 -> (9, 130) ∈ timeouts_ t2).
Proof.
  apply (timeout_fires_when_due 9 30 sample_timer (sample_world [])
           {| engine_threads := engine_threads (sample_world []);
              ticks_count := 130; ms_per_tick := 1; current_thread := Some 2%nat;
              preempt_calls := 0; console := [] |}
           1%nat
           {| et_type := DEFAULT; et_thread := Some 2%nat; et_messages := [] |}).
  - reflexivity.
  - simpl; lia.
  - lia.
  - simpl; lia.
  - reflexivity.
  - reflexivity.
  - reflexivity.
Defined.

(** ** From spawn to the parent's promise *)

(** X12.  A thread spawned with arguments answers its parent.  The
    engine thread holds one SET_ARGUMENTS message from engine thread [p]
    with correlation index [index] and a payload that unpacks.  The
    thread is constructed, set up and run: [Run] dispatches the message
    and returns false, for nothing holds a reference on a new thread.
    [TearDown] then completes and leaves on the queue of [p] one more
    message: a FUNCTION_RETURN_RESOLVE from this engine thread, for
    [index], with no data, since the thread has no exit value. *)
Theorem spawned_thread_answers_parent E this n p w lptr lptr_p parent
    payload index v :
  n <> p ->
  engine_threads w !! n = Some lptr ->
  et_type lptr = DEFAULT ->
  et_messages lptr = [ThreadMessage_new SET_ARGUMENTS (Some p) payload None index] ->
  engine_threads w !! p = Some lptr_p ->
  et_thread lptr_p = Some parent ->
  current_thread w = Some this ->
  Unpack E payload = Some v ->
  exists t0 t1 w1 t2 w2 t3 w3,
    Thread_new this true (Some n) w = Ok t0 /\
    SetUp t0 w = Ok (t1, w1) /\
    Run E t1 w1 = Ok (false, t2, w2) /\
    args_ t2 = Some v /\
    TearDown E t2 w2 = Ok (t3, w3) /\
    queue_of p w3 =
      queue_of p w ++
      [ThreadMessage_new FUNCTION_RETURN_RESOLVE (Some n) TransportData_new None index] /\
    queue_of n w3 = [].
Proof.
  intros Hnp Hn Hty Hq Hp Hparent Hcur Hunpack.
  eexists. eexists. eexists.
  assert (Hnew : Thread_new this true (Some n) w = Ok
            {| this_ := this; thread_mgr_ := true; type_ := DEFAULT;
               iv8_ := None; tpl_cache_ := None; ethread_ := Some n;
               exports_ := FunctionExports_new this; ref_count_ := 0;
               terminate_ := false; parent_thread_ := None; parent_promise_id_ := 0;
               irq_ticks_counter_ := 0; priority_ := 1; v8_interrupt_enabled_ := false;
               context_ := None; args_ := None; exit_value_ := None;
               call_wrapper_ := None; timeouts_ := []; timeout_data_ := ∅;
               irq_data_ := ∅; promises_ := ∅ |}).
  { unfold Thread_new. simpl. rewrite Hn. simpl. rewrite Hty. reflexivity. }
  set (t1 := {| this_ := this; thread_mgr_ := true; type_ := DEFAULT;
               iv8_ := Some (Isolate_SetData0 this Isolate_New);
               tpl_cache_ := Some {| tc_deleted := false |}; ethread_ := Some n;
               exports_ := FunctionExports_new this; ref_count_ := 0;
               terminate_ := false; parent_thread_ := None; parent_promise_id_ := 0;
               irq_ticks_counter_ := 0; priority_ := 1; v8_interrupt_enabled_ := false;
               context_ := None; args_ := None; exit_value_ := None;
               call_wrapper_ := None; timeouts_ := []; timeout_data_ := ∅;
               irq_data_ := ∅; promises_ := ∅ |}).
  set (w1 := printf P_new_isolate w).
  set (w1' := set_engine_threads
                (<[n := {| et_type := et_type lptr; et_thread := et_thread lptr;
                           et_messages := [] |}]> (engine_threads w1)) w1).
  set (t2 := set_terminate_ true
               (set_parent_promise_id_ index
                  (set_parent_thread_ (Some p)
                     (set_args_ (Some v)
                        (set_context_ (Some (NewContext E)) t1))))).
  set (w2 := printf P_terminate_refcount_0 (printf P_new_context w1')).
  assert (HRun : Run E t1 w1 = Ok (false, t2, w2)).
  { unfold Run, take_batch, thread_mgr, TakeMessages. simpl.
    change (engine_threads w1) with (engine_threads w). rewrite Hn. simpl.
    rewrite Hq. simpl. rewrite Hunpack. reflexivity. }
  assert (Hp2 : engine_threads w2 !! p = Some lptr_p).
  { simpl. rewrite lookup_insert_ne by exact Hnp. exact Hp. }
  destruct (TearDown_returns E t2 w2 (Isolate_SetData0 this Isolate_New) p lptr_p parent)
    as (t3 & w3 & HTear); try reflexivity; try assumption; [eexists; reflexivity|].
  exists t2, w2, t3, w3.
  split; [exact Hnew|]. split; [reflexivity|]. split; [exact HRun|].
  split; [reflexivity|]. split; [exact HTear|].
  apply TearDown_Ok_queues in HTear
    as (p' & lptr' & recv & Hp' & _ & _ & Hqueue & Hothers).
  simpl in Hp'. injection Hp' as <-.
  split.
  - rewrite Hqueue. unfold queue_of at 1. rewrite Hp2.
    unfold queue_of. rewrite Hp. reflexivity.
  - rewrite (Hothers n Hnp). unfold queue_of. simpl.
    rewrite lookup_insert_eq. reflexivity.
Qed.

Lemma spawned_thread_answers_parent_witness :
  exists t0 t1 w1 t2 w2 t3 w3,
    Thread_new 2%nat true (Some 1%nat) (sample_world [sample_message SET_ARGUMENTS 42]) = Ok t0 /\
    SetUp t0 (sample_world [sample_message SET_ARGUMENTS 42]) = Ok (t1, w1) /\
    Run sample_engine t1 w1 = Ok (false, t2, w2) /\
    args_ t2 = Some (ValueRef 8) /\
    TearDown sample_engine t2 w2 = Ok (t3, w3) /\
    queue_of 0 w3 =
      queue_of 0 (sample_world [sample_message SET_ARGUMENTS 42]) ++
      [ThreadMessage_new FUNCTION_RETURN_RESOLVE (Some 1%nat) TransportData_new None 42] /\
    queue_of 1 w3 = [].
Proof.
  apply (spawned_thread_answers_parent sample_engine 2%nat 1%nat 0%nat
           (sample_world [sample_message SET_ARGUMENTS 42])
           {| et_type := DEFAULT; et_thread := Some 2%nat;
              et_messages := [sample_message SET_ARGUMENTS 42] |}
           {| et_type := DEFAULT; et_thread := Some 1%nat; et_messages := [] |}
           1%nat [8%N] 42 (ValueRef 8)).
  - discriminate.
  - reflexivity.
  - reflexivity.
  - reflexivity.
  - reflexivity.
  - reflexivity.
  - reflexivity.
  - reflexivity.
Defined.

(** ** Exceptions do not interfere *)

(** X13.  What the [TryCatch] holds has no influence on the batch: two
    runs of the same messages from the same thread and world, one
    starting with an exception caught and one without, dispatch every
    message alike, end with the same thread and world, and give [Run] the
    same verdict. *)
Theorem exceptions_do_not_interfere E messages t w trycatch1 trycatch2 st1 :
  dispatch_all E messages (t, w, trycatch1) = Ok st1 ->
  exists st2,
    dispatch_all E messages (t, w, trycatch2) = Ok st2 /\
    st2.1 = st1.1 /\
    (finish st2).1.1 = (finish st1).1.1 /\
    ((finish st1).1.1 = false -> finish st2 = finish st1).
Proof.
  intros H.
  destruct (dispatch_all_after_exception E messages t w trycatch1 trycatch2 st1 H)
    as (st2 & Hst2 & Heq).
  exists st2. split; [exact Hst2|]. split; [exact Heq|].
  destruct st1 as [[t1 w1] tc1], st2 as [[t2 w2] tc2].
  simpl in Heq. injection Heq as -> ->.
  split; [apply finish_ignores_exception|].
  unfold finish. destruct (bool_decide (0 = ref_count_ t1) || terminate_ t1);
    [reflexivity | discriminate].
Qed.

Lemma exceptions_do_not_interfere_witness :
  exists st2,
    dispatch_all sample_engine [sample_evaluate 7; sample_evaluate 51]
      (sample_live, sample_world [], Some sample_exception) = Ok st2 /\
    st2.1 = (set_terminate_ true sample_live, sample_world []) /\
    (finish st2).1.1 = false /\
    (false = false ->
     finish st2 = finish (set_terminate_ true sample_live, sample_world [], None)).
Proof.
  apply (exceptions_do_not_interfere sample_engine
           [sample_evaluate 7; sample_evaluate 51] sample_live (sample_world [])
           None (Some sample_exception)
           (set_terminate_ true sample_live, sample_world [], None)).
  vm_compute. reflexivity.
Defined.

(** ** A deadline beyond 64 bits *)

(** X14.  The deadline of a timeout is computed in 64-bit unsigned
    arithmetic.  When the tick counter plus the delay in ticks reaches
    2^64 the deadline wraps around: it lies before the current tick, and
    the timeout is due at once -- the batch taken at the very tick at which
    it was set holds its TIMEOUT_EVENT message. *)
Theorem timeout_deadline_wraps timeout_id timeout_ms t w n lptr :
  thread_mgr_ t = true ->
  0 <= ticks_count w < 2 ^ 64 -> 0 <= timeout_ms < 2 ^ 64 ->
  0 < ms_per_tick w ->
  2 ^ 64 <= ticks_count w + timeout_ms `div` ms_per_tick w ->
  ethread_ t = Some n -> engine_threads w !! n = Some lptr ->
  let when := ticks_count w + timeout_ms `div` ms_per_tick w - 2 ^ 64 in
  when < ticks_count w /\
  exists t1,
    SetTimeout timeout_id timeout_ms t w = Ok t1 /\
    (timeout_id, when) ∈ timeouts_ t1 /\
    exists messages t2 w2,
      take_batch t1 w = Ok (messages, t2, w2) /\
      timeout_message timeout_id ∈ messages.
Proof.
  intros Hmgr Hnow Hms Hmpt Hover Hn Hw when.
  assert (Hdiv : 0 <= timeout_ms `div` ms_per_tick w <= timeout_ms).
  { split; [apply Z.div_pos; lia|]. apply Z.div_le_upper_bound; [lia|]. nia. }
  assert (Hwhen : when < ticks_count w) by (unfold when; lia).
  split; [exact Hwhen|].
  assert (Hset : SetTimeout timeout_id timeout_ms t w =
                 Ok (set_timeouts_ (Timeouts_Set timeout_id when (timeouts_ t)) t)).
  { unfold SetTimeout, thread_mgr. rewrite Hmgr. simpl.
    rewrite bool_decide_eq_false_2 by lia.
    assert (Hmod : wrap64 (ticks_count w + timeout_ms `div` ms_per_tick w) = when).
    { unfold wrap64, when.
      replace (ticks_count w + timeout_ms `div` ms_per_tick w)
        with (ticks_count w + timeout_ms `div` ms_per_tick w - 2 ^ 64 + 1 * 2 ^ 64)
        at 1 by lia.
      rewrite Z.mod_add by lia. apply Z.mod_small. lia. }
    rewrite Hmod. reflexivity. }
  eexists. split; [exact Hset|].
  assert (Hin : (timeout_id, when) ∈ Timeouts_Set timeout_id when (timeouts_ t)).
  { unfold Timeouts_Set. apply elem_of_app. right. apply list_elem_of_singleton.
    reflexivity. }
  split; [exact Hin|].
  destruct (take_batch_promotes
              (set_timeouts_ (Timeouts_Set timeout_id when (timeouts_ t)) t)
              w n lptr Hmgr Hn Hw)
    as (promoted & t2 & w2 & Hbatch & Hperm & Hdue & Hpending).
  eexists _, t2, w2. split; [exact Hbatch|].
  simpl in Hperm. rewrite Hperm in Hin.
  apply elem_of_app in Hin as [Hin|Hin].
  - apply elem_of_app. left.
    apply (list_elem_of_fmap_2 (fun x => timeout_message x.1)
             (reverse promoted) (timeout_id, when)).
    apply elem_of_reverse. exact Hin.
  - rewrite Forall_forall in Hpending.
    specialize (Hpending _ Hin). simpl in Hpending. lia.
Qed.

Lemma timeout_deadline_wraps_witness :
  84 < 100 /\
  exists t1,
    SetTimeout 9 18446744073709551600 sample_timer (sample_world []) = Ok t1 /\
    (9, 84) ∈ timeouts_ t1 /\
    exists messages t2 w2,
      take_batch t1 (sample_world []) = Ok (messages, t2, w2) /\
      timeout_message 9 ∈ messages.
Proof.
  apply (timeout_deadline_wraps 9 18446744073709551600 sample_timer
           (sample_world []) 1%nat
           {| et_type := DEFAULT; et_thread := Some 2%nat; et_messages := [] |}).
  - reflexivity.
  - vm_compute. split; [discriminate | reflexivity].
  - vm_compute. split; [discriminate | reflexivity].
  - reflexivity.
  - vm_compute. discriminate.
  - reflexivity.
  - reflexivity.
Defined.

(** ** From [Add] to the call, and from the exit value to the promise *)

(** X15.  An exported function can be called through its handle.  A
    function [f] is added to the export table of a thread (the table
    holding fewer than 2^32 entries); after any number of further [Add]s,
    a FUNCTION_CALL message that carries the handle returned for [f] makes
    the call wrapper run with [f], the sender, the unpacked payload and
    the index of the message. *)
Theorem exported_function_can_be_called E t w trycatch f recv h e1 e2
    message unpacked fnwrap :
  Z.of_nat (length (data_ (exports_ t))) < 2 ^ 32 ->
  FunctionExports_Add (iv8_ t) (Some f) recv (exports_ t) = Ok (h, e1) ->
  Exports_later e1 e2 ->
  IsFunction E f = true ->
  msg_type message = FUNCTION_CALL ->
  msg_exported_func message = Some h ->
  Unpack E (msg_data message) = Some unpacked ->
  call_wrapper_ t = Some fnwrap ->
  dispatch E message (set_exports_ e2 t, w, trycatch) =
    Ok (guarded E
          [Function_Call fnwrap
             [f; NewExternal E (msg_sender message); unpacked;
              Uint32_NewFromUnsigned E (msg_recv_index message)]]
          (set_exports_ e2 t, w, trycatch)).
Proof.
  intros Hsize HAdd Hlater Hf Hty Hefn Hunpack Hwrap.
  apply Add_inv in HAdd as (Hidx & _ & Hd1 & Ht1 & Hth & [iso Hiso]).
  apply Exports_later_prefix in Hlater as [Ht2 [more Hd2]].
  assert (Hindex : ef_index h = Z.of_nat (length (data_ (exports_ t)))).
  { rewrite Hidx. unfold wrap32. apply Z.mod_small. lia. }
  assert (Hentry : data_ e2 !! Z.to_nat (ef_index h) =
                   Some {| fed_value := Some f; fed_export_id := ef_export_id h |}).
  { rewrite Hindex, Nat2Z.id, Hd2, Hd1.
    rewrite lookup_app_l by (rewrite length_app; simpl; lia).
    rewrite lookup_app_r by lia.
    by rewrite Nat.sub_diag. }
  assert (Hth2 : is_Some (thread_ e2)) by (rewrite Ht2, Ht1; exact Hth).
  assert (Hpos : 0 <= ef_index h) by lia.
  pose proof (Get_entry iso _ (ef_export_id h) _ _ Hth2 Hpos Hentry) as HGet.
  simpl in HGet. rewrite bool_decide_eq_false_2 in HGet by tauto.
  unfold dispatch. rewrite Hty, Hunpack, Hefn. simpl.
  rewrite Hiso, HGet. simpl. rewrite Hf. simpl. rewrite Hwrap. reflexivity.
Qed.

Lemma exported_function_can_be_called_witness :
  dispatch sample_engine (sample_call 2 3)
    (set_exports_
       {| data_ := data_ sample_exports2 ++
                   [ {| fed_value := Some (ValueRef 102); fed_export_id := 3 |} ];
          export_id_ := 3; thread_ := Some 2%nat |} sample_exporting,
     sample_world [], None) =
  Ok (guarded sample_engine
        [Function_Call (ValueRef 150)
           [ValueRef 102; ValueRef 2; ValueRef 8; ValueRef 3]]
        (set_exports_
           {| data_ := data_ sample_exports2 ++
                       [ {| fed_value := Some (ValueRef 102); fed_export_id := 3 |} ];
              export_id_ := 3; thread_ := Some 2%nat |} sample_exporting,
         sample_world [], None)).
Proof.
  apply (exported_function_can_be_called sample_engine sample_exporting
           (sample_world []) None (ValueRef 102) (Some 0%nat)
           {| ef_index := 2; ef_export_id := 3; ef_thread := 2%nat;
              ef_recv := Some 0%nat |}
           {| data_ := data_ sample_exports2 ++
                       [ {| fed_value := Some (ValueRef 102); fed_export_id := 3 |} ];
              export_id_ := 3; thread_ := Some 2%nat |}
           _ (sample_call 2 3) (ValueRef 8) (ValueRef 150)).
  - reflexivity.
  - reflexivity.
  - apply Exports_later_refl.
  - reflexivity.
  - reflexivity.
  - reflexivity.
  - reflexivity.
  - reflexivity.
Defined.

(** X16.  The exit value of a thread settles the promise of its parent.
    A [TearDown] that completes on a thread with an exit value leaves on
    the parent's queue a message that, dispatched by the parent thread,
    takes the promise stored under the child's parent promise id and
    resolves it with what unpacks from the data that [MoveValue] produced
    for the exit value. *)
Theorem exit_value_resolves_parent_promise E child w child' w' n lptr recv v
    unpacked parent wp trycatch resolver :
  TearDown E child w = Ok (child', w') ->
  parent_thread_ child = Some n ->
  engine_threads w !! n = Some lptr -> et_thread lptr = Some recv ->
  exit_value_ child = Some v ->
  Unpack E (MoveValue E (this_ child) recv v).2 = Some unpacked ->
  promises_ parent !! parent_promise_id_ child = Some resolver ->
  exists message,
    queue_of n w' = queue_of n w ++ [message] /\
    msg_sender message = ethread_ child /\
    dispatch E message (parent, wp, trycatch) =
      Ok (guarded E [Resolver_Resolve resolver unpacked; RunMicrotasks]
            (set_promises_ (delete (parent_promise_id_ child) (promises_ parent)) parent,
             wp, trycatch)).
Proof.
  intros HTear Hparent Hn Hrecv Hexit Hunpack Hpromise.
  apply TearDown_Ok_queues in HTear
    as (n' & lptr' & recv' & Hp' & Hn' & Hrecv' & Hqueue & _).
  rewrite Hparent in Hp'. injection Hp' as <-.
  rewrite Hn in Hn'. injection Hn' as <-.
  rewrite Hrecv in Hrecv'. injection Hrecv' as <-.
  exists (TearDown_message E child recv). split; [exact Hqueue|].
  split; [reflexivity|].
  unfold dispatch, TearDown_message, TakePromise. rewrite Hexit. simpl.
  destruct (MoveValue E (this_ child) recv v) as [err data]. simpl in *.
  rewrite Hunpack. simpl. rewrite Hpromise. reflexivity.
Qed.

Lemma exit_value_resolves_parent_promise_witness :
  exists child' w' message,
    TearDown sample_engine sample_child_exiting (sample_world []) = Ok (child', w') /\
    queue_of 0 w' = queue_of 0 (sample_world []) ++ [message] /\
    msg_sender message = Some 1%nat /\
    dispatch sample_engine message (sample_parent, sample_world [], None) =
      Ok (guarded sample_engine
            [Resolver_Resolve (ValueRef 7) (ValueRef 77); RunMicrotasks]
            (set_promises_ (delete 42 (promises_ sample_parent)) sample_parent,
             sample_world [], None)).
Proof.
  destruct (TearDown sample_engine sample_child_exiting (sample_world []))
    as [[child' w']|f] eqn:HTear; [|vm_compute in HTear; discriminate].
  exists child', w'.
  destruct (exit_value_resolves_parent_promise sample_engine sample_child_exiting
              (sample_world []) child' w' 0%nat
              {| et_type := DEFAULT; et_thread := Some 1%nat; et_messages := [] |}
              1%nat (ValueRef 77) (ValueRef 77) sample_parent (sample_world [])
              None (ValueRef 7) HTear eq_refl eq_refl eq_refl eq_refl eq_refl eq_refl)
    as (message & Hq & Hs & Hd).
  exists message. auto.
Defined.

(** ** Sources that do not compile, and filler messages *)

(** X17.  A source text that does not compile is no fault of the
    thread.  Dispatch of the EVALUATE message runs no script and changes
    neither thread nor world; the exception of the compiler is left in
    the [TryCatch].  When that message is the whole batch of a thread
    that was set up, holds a reference and is not flagged, [Run] returns
    true and prints the exception. *)
Theorem compile_failure_is_reported E t w message t1 w1 unpacked ex :
  msg_type message = EVALUATE ->
  Unpack E (msg_data message) = Some unpacked ->
  Compile E unpacked = inr ex ->
  (forall t' w' trycatch,
     dispatch E message (t', w', trycatch) = Ok (t', w', Some ex)) /\
  (type_ t = DEFAULT -> is_Some (iv8_ t) -> is_Some (tpl_cache_ t) ->
   take_batch t w = Ok ([message], t1, w1) ->
   ref_count_ t <> 0 -> terminate_ t = false ->
   Run E t w =
     Ok (true, (ensure_context E t1 w1).1,
         log_exception ex (ensure_context E t1 w1).2)).
Proof.
  intros Hty Hunpack Hcompile.
  assert (Hdispatch : forall t' w' trycatch,
            dispatch E message (t', w', trycatch) = Ok (t', w', Some ex)).
  { intros t' w' trycatch. unfold dispatch.
    rewrite Hty, Hunpack. simpl. rewrite Hcompile. reflexivity. }
  split; [exact Hdispatch|].
  intros Htype Hiv8 Htpl Hbatch Hrc Hflag.
  destruct (Run_DEFAULT E t w [message] t1 w1 Htype Hiv8 Htpl Hbatch) as [_ Hfull].
  pose proof (take_batch_liveness _ _ _ _ _ Hbatch) as [Hrc1 Hflag1].
  pose proof (ensure_context_thread E t1 w1) as (Hrc2 & Hflag2 & _).
  destruct (ensure_context E t1 w1) as [t2 w2] eqn:Hctx. simpl in *.
  rewrite (Hfull ltac:(discriminate) (t2, w2, Some ex)).
  - unfold finish. rewrite Hflag2, Hflag1, Hflag.
    rewrite bool_decide_eq_false_2 by congruence. reflexivity.
  - cbn [dispatch_all]. rewrite Hdispatch. reflexivity.
Qed.

Lemma compile_failure_is_reported_witness :
  dispatch sample_engine_strict (sample_evaluate 66)
    (sample_live, sample_world [], None) =
    Ok (sample_live, sample_world [], Some sample_exception) /\
  Run sample_engine_strict sample_live (sample_world [sample_evaluate 66]) =
    Ok (true, set_context_ (Some (ValueRef 4)) sample_live,
        log_exception sample_exception (printf P_new_context (sample_world []))).
Proof.
  pose proof (compile_failure_is_reported sample_engine_strict sample_live
                (sample_world [sample_evaluate 66]) (sample_evaluate 66)
                sample_live (sample_world []) (ValueRef 66) sample_exception
                eq_refl eq_refl eq_refl) as [Hd HRun].
  split; [apply Hd|].
  apply HRun.
  - reflexivity.
  - eexists; reflexivity.
  - eexists; reflexivity.
  - vm_compute; reflexivity.
  - discriminate.
  - reflexivity.
Defined.

Lemma dispatch_all_EMPTY E messages st :
  Forall (fun m => msg_type m = EMPTY) messages ->
  dispatch_all E messages st = Ok st.
Proof.
  induction 1 as [|m rest Hm _ IH]; simpl; [reflexivity|].
  destruct st as [[t w] trycatch]. unfold dispatch. rewrite Hm. simpl. exact IH.
Qed.

(** X18.  Filler messages do nothing, but they make [Run] reach its
    verdict.  On a thread that was set up, a non-empty batch of EMPTY
    messages only has the context created if there is none and is
    followed by the test of the liveness count and the termination flag:
    a thread without reference is told to stop by a filler message. *)
Theorem filler_messages_reach_the_verdict E t w messages t1 w1 :
  type_ t = DEFAULT -> is_Some (iv8_ t) -> is_Some (tpl_cache_ t) ->
  take_batch t w = Ok (messages, t1, w1) ->
  messages <> [] ->
  Forall (fun m => msg_type m = EMPTY) messages ->
  Run E t w = Ok (finish (ensure_context E t1 w1, None)) /\
  (ref_count_ t = 0 -> exists t' w', Run E t w = Ok (false, t', w')).
Proof.
  intros Htype Hiv8 Htpl Hbatch Hne Hempty.
  destruct (Run_DEFAULT E t w messages t1 w1 Htype Hiv8 Htpl Hbatch) as [_ Hfull].
  pose proof (Hfull Hne _ (dispatch_all_EMPTY E messages _ Hempty)) as HRun.
  split; [exact HRun|].
  intros Hrc. rewrite HRun.
  pose proof (take_batch_liveness _ _ _ _ _ Hbatch) as [Hrc1 _].
  pose proof (ensure_context_thread E t1 w1) as (Hrc2 & _ & _).
  destruct (ensure_context E t1 w1) as [t2 w2]. simpl in Hrc2.
  rewrite (finish_false t2 w2 None); [eauto|]. left. congruence.
Qed.

Lemma filler_messages_reach_the_verdict_witness :
  Run sample_engine sample_thread (sample_world [sample_message EMPTY 0]) =
    Ok (finish (ensure_context sample_engine sample_thread (sample_world []), None)) /\
  exists t' w',
    Run sample_engine sample_thread (sample_world [sample_message EMPTY 0]) =
      Ok (false, t', w').
Proof.
  destruct (filler_messages_reach_the_verdict sample_engine sample_thread
              (sample_world [sample_message EMPTY 0]) [sample_message EMPTY 0]
              sample_thread (sample_world [])) as [H1 H2].
  - reflexivity.
  - eexists; reflexivity.
  - eexists; reflexivity.
  - vm_compute; reflexivity.
  - discriminate.
  - repeat constructor.
  - split; [exact H1 | apply H2; reflexivity].
Defined.
